(** * handler/handler.go: the request handler of the installer service

    A shallow embedding of [src/handler/handler.go] and the properties of
    its query builder, error layer, GitHub client and asset predicates.

    Go strings are byte sequences: they are modelled as [string] (a list of
    8-bit [ascii] values).  The regular expressions of the handler only
    name ASCII characters, so matching byte by byte agrees with Go's
    matching rune by rune: a byte of 0x80 and above belongs to a rune
    outside ASCII (or is an invalid byte, read as U+FFFD), which no
    positive class of the handler contains and which the negated class of
    [errMsgRe] contains whole. *)

From Stdlib Require Import ZArith Ascii String Lia.
From stdpp Require Import base option list gmap strings.

(** ** Strings *)

Module Str.

Fixpoint take (n : nat) (s : string) : string :=
  match n, s with
  | S n', String c s' => String c (take n' s')
  | _, _ => EmptyString
  end.

Fixpoint drop (n : nat) (s : string) : string :=
  match n, s with
  | S n', String _ s' => drop n' s'
  | _, _ => s
  end.

Fixpoint filter (p : ascii -> bool) (s : string) : string :=
  match s with
  | EmptyString => EmptyString
  | String c s' => if p c then String c (filter p s') else filter p s'
  end.

Fixpoint all (p : ascii -> bool) (s : string) : bool :=
  match s with
  | EmptyString => true
  | String c s' => p c && all p s'
  end.

(** [strings.HasSuffix s suffix] *)
Fixpoint HasSuffix (s suffix : string) : bool :=
  String.eqb s suffix ||
  match s with
  | EmptyString => false
  | String _ s' => HasSuffix s' suffix
  end.

(** the character code, as Go's [byte] *)
Definition code (c : ascii) : N := N_of_ascii c.

Definition between (lo hi c : ascii) : bool :=
  (code lo <=? code c)%N && (code c <=? code hi)%N.

Definition is_upper (c : ascii) : bool := between "A"%char "Z"%char c.
Definition is_lower (c : ascii) : bool := between "a"%char "z"%char c.
Definition is_digit (c : ascii) : bool := between "0"%char "9"%char c.

(** ASCII case folding, as [(?i)] folds the letters of [curl], [wget]
    and [homebrew] (none of which has a non-ASCII case variant: only
    [k] and [s] do). *)
Definition to_lower (c : ascii) : ascii :=
  if is_upper c then ascii_of_N (code c + 32) else c.

Fixpoint lower (s : string) : string :=
  match s with
  | EmptyString => EmptyString
  | String c s' => String (to_lower c) (lower s')
  end.

End Str.

(** ** Go's [regexp], as far as the handler uses it

    A backtracking matcher in continuation-passing style.  It returns the
    match that Go's leftmost-first semantics selects: alternatives are
    tried in order, a greedy repetition tries one more iteration before it
    stops, a non-greedy one stops before it tries one more. *)

Module Regexp.

Inductive regex : Type :=
| Empty                                           (* the empty match  *)
| Lit (c : ascii)                                 (* a literal byte   *)
| Class (p : ascii -> bool)                       (* [...] and [^...] *)
| Bol                                             (* ^                *)
| Cat (r1 r2 : regex)                             (* r1 r2            *)
| Alt (r1 r2 : regex)                             (* r1|r2            *)
| Rep (r : regex) (lo hi : nat) (greedy : bool)   (* r{lo,hi}, r{lo,hi}? *)
| Cap (i : nat) (r : regex).                      (* capture group i  *)

(** [r?] *)
Definition Opt (r : regex) : regex := Rep r 0 1 true.

(** a literal under [(?i)] *)
Definition LitI (c : ascii) : regex :=
  Class (fun a => Ascii.eqb (Str.to_lower a) (Str.to_lower c)).

(** a literal string under [(?i)] *)
Fixpoint LitsI (s : string) : regex :=
  match s with
  | EmptyString => Empty
  | String c s' => Cat (LitI c) (LitsI s')
  end.

(** captures: group index to matched text; index 0 is the whole match *)
Abbreviation captures := (gmap nat string).

(** a continuation takes the offset reached, the input left and the
    captures so far *)
Definition cont (T : Type) : Type := nat -> string -> captures -> option T.

(** [r{lo,hi}] by its iterations: [fuel] more are allowed, [done] are
    made; [step] matches [r] once *)
Fixpoint iterate {T} (step : nat -> string -> captures -> cont T -> option T)
    (lo : nat) (greedy : bool) (k : cont T)
    (fuel done pos : nat) (s : string) (caps : captures) : option T :=
  match fuel with
  | 0 => if (lo <=? done)%nat then k pos s caps else None
  | S fuel' =>
      if greedy then
        match step pos s caps (iterate step lo greedy k fuel' (S done)) with
        | Some x => Some x
        | None => if (lo <=? done)%nat then k pos s caps else None
        end
      else
        match (if (lo <=? done)%nat then k pos s caps else None) with
        | Some x => Some x
        | None => step pos s caps (iterate step lo greedy k fuel' (S done))
        end
  end.

Fixpoint run {T} (r : regex) (pos : nat) (s : string) (caps : captures)
    (k : cont T) {struct r} : option T :=
  match r with
  | Empty => k pos s caps
  | Lit c =>
      match s with
      | String a s' => if Ascii.eqb a c then k (S pos) s' caps else None
      | EmptyString => None
      end
  | Class p =>
      match s with
      | String a s' => if p a then k (S pos) s' caps else None
      | EmptyString => None
      end
  | Bol => if Nat.eqb pos 0 then k pos s caps else None
  | Cat r1 r2 =>
      run r1 pos s caps (fun pos' s' caps' => run r2 pos' s' caps' k)
  | Alt r1 r2 =>
      match run r1 pos s caps k with
      | Some x => Some x
      | None => run r2 pos s caps k
      end
  | Rep r' lo hi greedy =>
      iterate (fun pos' s' caps' k' => run r' pos' s' caps' k')
              lo greedy k hi 0 pos s caps
  | Cap i r' =>
      run r' pos s caps
        (fun pos' s' caps' => k pos' s' (<[i := Str.take (pos' - pos) s]> caps'))
  end.

(** one attempt at offset [pos]: the end offset and the captures *)
Definition attempt (r : regex) (pos : nat) (s : string)
    : option (nat * captures) :=
  run r pos s ∅
    (fun e _ caps => Some (e, <[0 := Str.take (e - pos) s]> caps)).

(** the leftmost match at or after [pos]: start, end, captures *)
Fixpoint search (r : regex) (pos : nat) (s : string)
    : option (nat * nat * captures) :=
  match attempt r pos s with
  | Some (e, caps) => Some (pos, e, caps)
  | None =>
      match s with
      | EmptyString => None
      | String _ s' => search r (S pos) s'
      end
  end.

Fixpoint NumSubexp (r : regex) : nat :=
  match r with
  | Empty | Lit _ | Class _ | Bol => 0
  | Cat r1 r2 | Alt r1 r2 => NumSubexp r1 `max` NumSubexp r2
  | Rep r' _ _ _ => NumSubexp r'
  | Cap i r' => i `max` NumSubexp r'
  end.

Definition MatchString (r : regex) (s : string) : bool :=
  match search r 0 s with Some _ => true | None => false end.

(** [FindStringSubmatch]: nil when there is no match, else the whole
    match followed by the text of each group, "" for a group that took
    no part in the match. *)
Definition FindStringSubmatch (r : regex) (s : string) : list string :=
  match search r 0 s with
  | None => []
  | Some (_, _, caps) =>
      (fun i => default "" (caps !! i)) <$> seq 0 (S (NumSubexp r))
  end.

(** [ReplaceAllString] with a replacement that has no [$]: the loop of
    [regexp.replaceAll].  [s] is the input from [pos] on, [fresh] is
    false when a match ended at [pos] (an empty match there is not
    replaced again). *)
Fixpoint replaceAll (r : regex) (repl : string) (fuel pos : nat)
    (fresh : bool) (s : string) : string :=
  match fuel with
  | 0 => s
  | S fuel' =>
      match search r pos s with
      | None => s
      | Some (a0, a1, _) =>
          let before := Str.take (a0 - pos) s in
          if (a0 <? a1)%nat then
            before +:+ repl +:+
              replaceAll r repl fuel' a1 false (Str.drop (a1 - pos) s)
          else
            let put := if fresh || negb (Nat.eqb a0 pos) then repl else "" in
            match Str.drop (a0 - pos) s with
            | EmptyString => before +:+ put
            | String c s' =>
                before +:+ put +:+
                  String c (replaceAll r repl fuel' (S a0) true s')
            end
      end
  end.

Definition ReplaceAllString (r : regex) (src repl : string) : string :=
  replaceAll r repl (S (String.length src)) 0 true src.

End Regexp.

Import Regexp.

(** ** The handler's regular expressions (lines 26-33) *)

(** [\w] *)
Definition word (c : ascii) : bool :=
  Str.is_digit c || Str.is_upper c || Str.is_lower c || Ascii.eqb c "_"%char.

(** [[\w\-]] *)
Definition userClass (c : ascii) : bool := word c || Ascii.eqb c "-"%char.

(** [[\w\-\_]] *)
Definition repoClass (c : ascii) : bool :=
  word c || Ascii.eqb c "-"%char || Ascii.eqb c "_"%char.

(** [[\w\-\.\_]] *)
Definition releaseClass (c : ascii) : bool :=
  word c || Ascii.eqb c "-"%char || Ascii.eqb c "."%char ||
  Ascii.eqb c "_"%char.

(** [(\/([\w\-]{1,128}))?] *)
Definition userRe : regex :=
  Opt (Cap 1 (Cat (Lit "/"%char) (Cap 2 (Rep (Class userClass) 1 128 true)))).

(** [([\w\-\_]{1,128})] *)
Definition repoRe : regex := Cap 3 (Rep (Class repoClass) 1 128 true).

(** [(@([\w\-\.\_]{1,128}?))?] *)
Definition releaseRe : regex :=
  Opt (Cap 4 (Cat (Lit "@"%char)
                  (Cap 5 (Rep (Class releaseClass) 1 128 false)))).

(** [^] + userRe + [\/] + repoRe + releaseRe *)
Definition pathRe : regex :=
  Cat Bol (Cat userRe (Cat (Lit "/"%char) (Cat repoRe releaseRe))).

(** [(?i)^(curl|wget)\/] *)
Definition isTermRe : regex :=
  Cat Bol (Cat (Cap 1 (Alt (LitsI "curl") (LitsI "wget"))) (Lit "/"%char)).

(** [(?i)^homebrew] *)
Definition isHomebrewRe : regex := Cat Bol (LitsI "homebrew").

(** the characters [errMsgRe] keeps: [A-Za-z0-9 :/.] *)
Definition errMsgKeep (c : ascii) : bool :=
  Str.is_upper c || Str.is_lower c || Str.is_digit c ||
  Ascii.eqb c " "%char || Ascii.eqb c ":"%char || Ascii.eqb c "/"%char ||
  Ascii.eqb c "."%char.

(** [[^A-Za-z0-9\ :\/\.]] *)
Definition errMsgRe : regex := Class (fun c => negb (errMsgKeep c)).

(** ** Go's [net/http], as far as the handler uses it *)

Module http.

Definition StatusOK : nat := 200.
Definition StatusMovedPermanently : nat := 301.
Definition StatusBadRequest : nat := 400.
Definition StatusInternalServerError : nat := 500.
Definition StatusBadGateway : nat := 502.

(** [http.Header] and [url.Values]: a key to its list of values.  The
    handler only uses keys in canonical form. *)
Abbreviation Header := (gmap string (list string)).

Definition Get (h : Header) (key : string) : string :=
  match h !! key with
  | Some (v :: _) => v
  | _ => ""
  end.

Definition Set_ (h : Header) (key value : string) : Header :=
  <[key := [value]]> h.

Definition Del (h : Header) (key : string) : Header := delete key h.

Record Request : Type := mkRequest {
  Method : string;
  URL_Path : string;          (* r.URL.Path *)
  URL_Query : Header;         (* r.URL.Query() *)
  ReqHeader : Header          (* r.Header *)
}.

(** what a handler has done to its [http.ResponseWriter] *)
Record ResponseWriter : Type := mkResponseWriter {
  header : Header;
  status : option nat;        (* None until the header is written *)
  body : string
}.

Definition fresh : ResponseWriter :=
  {| header := ∅; status := None; body := "" |}.

Definition withHeader (w : ResponseWriter) (h : Header) : ResponseWriter :=
  {| header := h; status := status w; body := body w |}.

(** the first call fixes the status *)
Definition WriteHeader (w : ResponseWriter) (code : nat) : ResponseWriter :=
  match status w with
  | Some _ => w
  | None => {| header := header w; status := Some code; body := body w |}
  end.

Definition Write_ (w : ResponseWriter) (b : string) : ResponseWriter :=
  let w := WriteHeader w StatusOK in
  {| header := header w; status := status w; body := body w +:+ b |}.

Definition newline : string := String "010"%char EmptyString.

(** [http.Error] *)
Definition Error (w : ResponseWriter) (error : string) (code : nat)
    : ResponseWriter :=
  let h := Del (header w) "Content-Length" in
  let h := Set_ h "Content-Type" "text/plain; charset=utf-8" in
  let h := Set_ h "X-Content-Type-Options" "nosniff" in
  let w := WriteHeader (withHeader w h) code in
  Write_ w (error +:+ newline).

(** [http.StatusText] *)
Definition StatusText (code : nat) : string :=
  match code with
  | 100 => "Continue" | 101 => "Switching Protocols" | 102 => "Processing"
  | 103 => "Early Hints"
  | 200 => "OK" | 201 => "Created" | 202 => "Accepted"
  | 203 => "Non-Authoritative Information" | 204 => "No Content"
  | 205 => "Reset Content" | 206 => "Partial Content" | 207 => "Multi-Status"
  | 208 => "Already Reported" | 226 => "IM Used"
  | 300 => "Multiple Choices" | 301 => "Moved Permanently" | 302 => "Found"
  | 303 => "See Other" | 304 => "Not Modified" | 305 => "Use Proxy"
  | 307 => "Temporary Redirect" | 308 => "Permanent Redirect"
  | 400 => "Bad Request" | 401 => "Unauthorized" | 402 => "Payment Required"
  | 403 => "Forbidden" | 404 => "Not Found" | 405 => "Method Not Allowed"
  | 406 => "Not Acceptable" | 407 => "Proxy Authentication Required"
  | 408 => "Request Timeout" | 409 => "Conflict" | 410 => "Gone"
  | 411 => "Length Required" | 412 => "Precondition Failed"
  | 413 => "Request Entity Too Large" | 414 => "Request URI Too Long"
  | 415 => "Unsupported Media Type"
  | 416 => "Requested Range Not Satisfiable" | 417 => "Expectation Failed"
  | 418 => "I'm a teapot" | 421 => "Misdirected Request"
  | 422 => "Unprocessable Entity" | 423 => "Locked"
  | 424 => "Failed Dependency" | 425 => "Too Early"
  | 426 => "Upgrade Required" | 428 => "Precondition Required"
  | 429 => "Too Many Requests" | 431 => "Request Header Fields Too Large"
  | 451 => "Unavailable For Legal Reasons"
  | 500 => "Internal Server Error" | 501 => "Not Implemented"
  | 502 => "Bad Gateway" | 503 => "Service Unavailable"
  | 504 => "Gateway Timeout" | 505 => "HTTP Version Not Supported"
  | 506 => "Variant Also Negotiates" | 507 => "Insufficient Storage"
  | 508 => "Loop Detected" | 510 => "Not Extended"
  | 511 => "Network Authentication Required"
  | _ => ""
  end%nat.

(** [htmlEscape]: the five characters that [http.Redirect] escapes in
    the link it writes *)
Fixpoint htmlEscape (s : string) : string :=
  match s with
  | EmptyString => EmptyString
  | String c s' =>
      (if Ascii.eqb c "&" then "&amp;"
       else if Ascii.eqb c "<" then "&lt;"
       else if Ascii.eqb c ">" then "&gt;"
       else if Ascii.eqb c "034" then "&#34;"
       else if Ascii.eqb c "'" then "&#39;"
       else String c EmptyString) +:+ htmlEscape s'
  end.

Definition hasHeader (h : Header) (key : string) : bool :=
  match h !! key with
  | Some _ => true
  | None => false
  end.

(** [http.Redirect] to an absolute ASCII URL, which it sends as it is:
    the Location header, the status, and for a response without a
    Content-Type of its own a small HTML body *)
Definition Redirect (w : ResponseWriter) (r : Request) (url : string)
    (code : nat) : ResponseWriter :=
  let hadCT := hasHeader (header w) "Content-Type" in
  let h := Set_ (header w) "Location" url in
  let h :=
    if negb hadCT &&
       (String.eqb (Method r) "GET" || String.eqb (Method r) "HEAD")
    then Set_ h "Content-Type" "text/html; charset=utf-8"
    else h in
  let w := WriteHeader (withHeader w h) code in
  if negb hadCT && String.eqb (Method r) "GET" then
    Write_ w ("<a href=" +:+ String "034" (htmlEscape url) +:+ String "034" ">"
              +:+ StatusText code +:+ "</a>." +:+ newline +:+ newline)
  else w.

End http.

(** ** The data model (lines 37-48, 180-210) *)

Record Query : Type := mkQuery {
  User : string;
  Program : string;
  AsProgram : string;
  Release : string;
  MoveToPath : bool;
  Google : bool;
  Insecure : bool;
  SudoMove : bool
}.

Record Asset : Type := mkAsset {
  Name : string;
  OS : string;
  Arch : string;
  URL : string;
  Type_ : string;
  SHA256 : string
}.

Abbreviation Assets := (list Asset).

Record Result : Type := mkResult {
  query : Query;               (* the embedded Query *)
  Timestamp : Z;
  assets : Assets;
  M1Asset : bool
}.

Definition Key (a : Asset) : string := OS a +:+ "/" +:+ Arch a.

Definition Is32Bit (a : Asset) : bool := String.eqb (Arch a) "386".

Definition IsMac (a : Asset) : bool := String.eqb (OS a) "darwin".

Definition IsMacM1 (a : Asset) : bool := IsMac a && String.eqb (Arch a) "arm64".

(** the loop of [HasM1] returns at the first native M1 asset *)
Fixpoint HasM1 (as_ : Assets) : bool :=
  match as_ with
  | [] => false
  | a :: rest => if IsMacM1 a then true else HasM1 rest
  end.

(** Modelled from the spec: the [Config] embedded in [Handler] is declared
    outside [handler.go]; these are the fields the handler reads, which
    section 6 lists as default user, forced user, forced repo and API
    token. *)
Module Config.
Record t : Type := mk {
  User : string;
  ForceUser : string;
  ForceRepo : string;
  Token : string
}.
End Config.

(** Go's [error]: a message, and the error it wraps if any ([%w]) *)
Inductive error : Type :=
| errorString (msg : string)
| wrapError (msg : string) (inner : error).

Definition Error (e : error) : string :=
  match e with
  | errorString msg => msg
  | wrapError msg _ => msg
  end.

Definition errNotFound : error := errorString "not found".

(** ** ServeHTTP (lines 66-178)

    The receiver [h] is read for its [Config] only, which the model takes
    in its place; the cache and its mutex belong to [h.execute]. *)

(** what the handler does besides writing the response *)
Inductive Event : Type :=
| EvExecute (q : Query)              (* h.execute(q)              *)
| EvParse (script : string)          (* template.Parse(script)    *)
| EvRender (result : Result)         (* t.Execute(&buff, result)  *)
| EvLog (line : string).             (* log.Printf                *)

(** What the handler uses and [handler.go] does not define: the script
    templates of package [scripts], the outcome of [h.execute(q)] (which
    consults the cache, the clock and the upstream), and [text/template]. *)
Record Env : Type := mkEnv {
  scripts_Shell : string;
  scripts_Homebrew : string;
  scripts_Text : string;
  execute : Query -> Result + error;
  Template : Type;
  template_Parse : string -> Template + error;
  template_Execute : Template -> Result -> string + error
}.

Section ServeHTTP.

Context (env : Env).

(** lines 75-86 *)
Definition responseType (r : http.Request) : string :=
  let qtype := http.Get (http.URL_Query r) "type" in
  if String.eqb qtype "" then
    let ua := http.Get (http.ReqHeader r) "User-Agent" in
    if MatchString isTermRe ua then "script"
    else if MatchString isHomebrewRe ua then "ruby"
    else "text"
  else qtype.

(** lines 88-95; [code] is a parameter of the closure *)
Definition showError (qtype : string) (w : http.ResponseWriter)
    (msg : string) (code : nat) : http.ResponseWriter :=
  let cleaned := ReplaceAllString errMsgRe msg "" in
  let cleaned :=
    if String.eqb qtype "script" then "echo '" +:+ cleaned +:+ "'"
    else cleaned in
  http.Error w cleaned http.StatusInternalServerError.

(** the switch of lines 96-112: Content-Type, [ext] and [script] of a
    known type *)
Definition typeSwitch (qtype : string) : option (string * string * string) :=
  if String.eqb qtype "script" then
    Some ("text/x-shellscript", "sh", scripts_Shell env)
  else if String.eqb qtype "homebrew" || String.eqb qtype "ruby" then
    Some ("text/ruby", "rb", scripts_Homebrew env)
  else if String.eqb qtype "text" then
    Some ("text/plain", "txt", scripts_Text env)
  else None.

(** lines 113-128 *)
Definition routeQuery (r : http.Request) : Query :=
  let insecure := String.eqb (http.Get (http.URL_Query r) "insecure") "1" in
  let as_ := http.Get (http.URL_Query r) "as" in
  let m := FindStringSubmatch pathRe (http.URL_Path r) in
  let at_ (i : nat) := default "" (m !! i) in
  let moveToPath := Str.HasSuffix (http.URL_Path r) "!" in
  if (0 <? length m)%nat then
    mkQuery (at_ 2%nat) (at_ 3%nat) as_ (at_ 5%nat)
            moveToPath false insecure false
  else
    mkQuery "" "" as_ "" moveToPath false insecure false.

(** lines 129-139 *)
Definition defaultUser (cfg : Config.t) (q : Query) : Query :=
  if String.eqb (User q) "" then
    if String.eqb (Program q) "micro" then
      mkQuery "zyedidia" (Program q) (AsProgram q) (Release q)
              (MoveToPath q) (Google q) (Insecure q) (SudoMove q)
    else
      mkQuery (Config.User cfg) (Program q) (AsProgram q) (Release q)
              (MoveToPath q) true (Insecure q) (SudoMove q)
  else q.

(** lines 140-146 *)
Definition forceUserRepo (cfg : Config.t) (q : Query) : Query :=
  let user :=
    if String.eqb (Config.ForceUser cfg) "" then User q
    else Config.ForceUser cfg in
  let program :=
    if String.eqb (Config.ForceRepo cfg) "" then Program q
    else Config.ForceRepo cfg in
  mkQuery user program (AsProgram q) (Release q)
          (MoveToPath q) (Google q) (Insecure q) (SudoMove q).

(** the query as it stands at line 147 *)
Definition buildQuery (cfg : Config.t) (r : http.Request) : Query :=
  forceUserRepo cfg (defaultUser cfg (routeQuery r)).

(** line 148 *)
Definition valid (q : Query) : bool :=
  negb (String.eqb (User q) "") && negb (String.eqb (Program q) "").

Definition homepage : string := "https://github.com/jpillora/installer".

(** line 175 *)
Definition servingLine (q : Query) (ext : string) : string :=
  "serving script " +:+ User q +:+ "/" +:+ Program q +:+ "@" +:+ Release q
    +:+ " (" +:+ ext +:+ ")".

Definition ServeHTTP (cfg : Config.t) (w : http.ResponseWriter)
    (r : http.Request) : http.ResponseWriter * list Event :=
  if String.eqb (http.URL_Path r) "/healthz" then
    (http.Write_ (http.WriteHeader w http.StatusOK) "OK", [])
  else
    let qtype := responseType r in
    match typeSwitch qtype with
    | None =>
        (showError qtype w "Unknown type" http.StatusInternalServerError, [])
    | Some (contentType, ext, script) =>
        let w := http.withHeader w
                   (http.Set_ (http.header w) "Content-Type" contentType) in
        let q := buildQuery cfg r in
        if negb (valid q) && String.eqb (http.URL_Path r) "/" then
          (http.Redirect w r homepage http.StatusMovedPermanently, [])
        else if negb (valid q) then
          (showError qtype w "Invalid path" http.StatusBadRequest, [])
        else
          match execute env q with
          | inr err =>
              (showError qtype w (Error err) http.StatusBadGateway,
               [EvExecute q])
          | inl result =>
              match template_Parse env script with
              | inr err =>
                  (showError qtype w ("installer BUG: " +:+ Error err)
                     http.StatusInternalServerError,
                   [EvExecute q; EvParse script])
              | inl t =>
                  match template_Execute env t result with
                  | inr err =>
                      (showError qtype w ("Template error: " +:+ Error err)
                         http.StatusInternalServerError,
                       [EvExecute q; EvParse script; EvRender result])
                  | inl buff =>
                      (http.Write_ w buff,
                       [EvExecute q; EvParse script; EvRender result;
                        EvLog (servingLine q ext)])
                  end
              end
          end
    end.

End ServeHTTP.

(** ** The GitHub client (lines 212-237) *)

Module client.

(** an outbound [http.Request] *)
Record Request : Type := mkRequest {
  Method : string;
  Url : string;
  Header : http.Header
}.

Record Response : Type := mkResponse {
  StatusCode : nat;
  Body : string
}.

(** how a call ends: by a run-time panic, with an error, or with the
    decoded value stored through [v] *)
Inductive outcome (V : Type) : Type :=
| Panic
| Failed (err : error)
| Decoded (v : V).
Arguments Panic {V}.
Arguments Failed {V} err.
Arguments Decoded {V} v.

Section get.

(** the error of [url.Parse] on a URL that it refuses *)
Context (parse_error : string -> option error).
(** the default client and the upstream: the response to a request
    that was sent, or a transport error *)
Context (roundTrip : Request -> Response + error).
(** [json.NewDecoder(resp.Body).Decode(v)] for the caller's [v] *)
Context {V : Type} (json_Decode : string -> V + error).

(** [http.NewRequest(method, url, nil)]: a request with no header set,
    or the error of a URL that does not parse *)
Definition NewRequest (method url : string) : Request + error :=
  match parse_error url with
  | Some err => inr err
  | None => inl (mkRequest method url ∅)
  end.

(** [req.Header.Set(key, value)] *)
Definition Header_Set (req : Request) (key value : string) : Request :=
  mkRequest (Method req) (Url req) (http.Set_ (Header req) key value).

(** [http.Get(url)]: the default client sends a request of its own
    making, [NewRequest("GET", url, nil)]; the result comes with the
    requests that went out *)
Definition http_Get (url : string)
    : (Response + error) * list Request :=
  match NewRequest "GET" url with
  | inr err => (inr err, [])
  | inl req => (roundTrip req, [req])
  end.

(** the result of [h.get(url, v)] and the requests that went out *)
Definition get (cfg : Config.t) (url : string)
    : outcome V * list Request :=
  match NewRequest "GET" url with
  | inr _ => (Panic, [])        (* line 213 drops the error, req is nil *)
  | inl req =>
      let req := Header_Set req "Accept" "application/vnd.github.v3+json" in
      let req :=
        if negb (String.eqb (Config.Token cfg) "") then
          Header_Set req "Authorization" ("token " +:+ Config.Token cfg)
        else req in
      (* req is not used below: line 218 calls http.Get(url) *)
      match http_Get url with
      | (inr err, sent) =>
          (Failed (errorString
             ("request failed: " +:+ url +:+ ": " +:+ Error err)), sent)
      | (inl resp, sent) =>
          if Nat.eqb (StatusCode resp) 404 then
            (Failed (wrapError
               (Error errNotFound +:+ ": url " +:+ url) errNotFound), sent)
          else if negb (Nat.eqb (StatusCode resp) 200) then
            (Failed (errorString
               (http.StatusText (StatusCode resp) +:+ " " +:+ Body resp)), sent)
          else
            match json_Decode (Body resp) with
            | inr err =>
                (Failed (errorString
                   ("download failed: " +:+ url +:+ ": " +:+ Error err)),
                 sent)
            | inl v => (Decoded v, sent)
            end
      end
  end.

End get.

End client.

(** ** The cache key (lines 50-57) *)

(** a string as Go's [[]byte] *)
Fixpoint bytes (s : string) : list Z :=
  match s with
  | EmptyString => []
  | String c s' => Z.of_N (N_of_ascii c) :: bytes s'
  end.

(** [crypto/sha256] on 32-bit words held in [Z] *)
Module sha256.

Local Open Scope Z_scope.

Definition wrap (x : Z) : Z := x mod 2 ^ 32.
Definition add (x y : Z) : Z := wrap (x + y).
Definition rotr (n x : Z) : Z :=
  Z.lor (Z.shiftr x n) (wrap (Z.shiftl x (32 - n))).
Definition not32 (x : Z) : Z := Z.lxor x 0xffffffff.

Definition Ch (x y z : Z) : Z := Z.lxor (Z.land x y) (Z.land (not32 x) z).
Definition Maj (x y z : Z) : Z :=
  Z.lxor (Z.lxor (Z.land x y) (Z.land x z)) (Z.land y z).
Definition Sigma0 (x : Z) : Z :=
  Z.lxor (Z.lxor (rotr 2 x) (rotr 13 x)) (rotr 22 x).
Definition Sigma1 (x : Z) : Z :=
  Z.lxor (Z.lxor (rotr 6 x) (rotr 11 x)) (rotr 25 x).
Definition sigma0 (x : Z) : Z :=
  Z.lxor (Z.lxor (rotr 7 x) (rotr 18 x)) (Z.shiftr x 3).
Definition sigma1 (x : Z) : Z :=
  Z.lxor (Z.lxor (rotr 17 x) (rotr 19 x)) (Z.shiftr x 10).

(** the first 64 primes *)
Definition primes : list Z :=
  [ 2; 3; 5; 7; 11; 13; 17; 19; 23; 29; 31; 37; 41; 43; 47; 53; 59; 61; 67;
    71; 73; 79; 83; 89; 97; 101; 103; 107; 109; 113; 127; 131; 137; 139; 149;
    151; 157; 163; 167; 173; 179; 181; 191; 193; 197; 199; 211; 223; 227;
    229; 233; 239; 241; 251; 257; 263; 269; 271; 277; 281; 283; 293; 307;
    311 ].

(** the largest [x] below [2 ^ bits] with [x ^ k <= n], found bit by bit *)
Fixpoint iroot (k n : Z) (bits : nat) (x : Z) : Z :=
  match bits with
  | O => x
  | S bits' =>
      let y := x + 2 ^ Z.of_nat bits' in
      iroot k n bits' (if y ^ k <=? n then y else x)
  end.

(** the first 32 bits of the fractional part of the [k]-th root of [p] *)
Definition frac_root (k p : Z) : Z :=
  wrap (iroot k (p * 2 ^ (32 * k)) 40 0).

(** the round constants: from the cube roots of the first 64 primes *)
Definition K : list Z := Eval vm_compute in frac_root 3 <$> primes.

(** the initial hash value: from the square roots of the first 8 primes *)
Definition init : list Z := Eval vm_compute in frac_root 2 <$> take 8 primes.

(** big-endian bytes of a value, most significant first *)
Fixpoint be_bytes (n : nat) (x : Z) : list Z :=
  match n with
  | O => []
  | S n' => (Z.shiftr x (8 * Z.of_nat n')) mod 256 :: be_bytes n' x
  end.

(** the message, 0x80, zeros up to 56 mod 64, the bit length on 8 bytes *)
Definition pad (msg : list Z) : list Z :=
  let len := Z.of_nat (length msg) in
  let zeros := Z.to_nat ((55 - len) mod 64) in
  msg ++ [128] ++ replicate zeros 0 ++ be_bytes 8%nat (8 * len).

Fixpoint words (fuel : nat) (bs : list Z) : list Z :=
  match fuel, bs with
  | S fuel', b0 :: b1 :: b2 :: b3 :: rest =>
      (Z.shiftl b0 24 + Z.shiftl b1 16 + Z.shiftl b2 8 + b3) :: words fuel' rest
  | _, _ => []
  end.

(** the message schedule: [w] holds W[0..t-1], [n] more words to add *)
Fixpoint schedule (n : nat) (w : list Z) : list Z :=
  match n with
  | O => w
  | S n' =>
      let t := length w in
      let at_ (i : nat) := nth (t - i)%nat w 0 in
      schedule n'
        (w ++ [add (add (sigma1 (at_ 2%nat)) (at_ 7%nat))
                   (add (sigma0 (at_ 15%nat)) (at_ 16%nat))])
  end.

Definition round (st : list Z) (kw : Z * Z) : list Z :=
  match st with
  | [a; b; c; d; e; f; g; h] =>
      let t1 := add (add (add h (Sigma1 e)) (add (Ch e f g) (fst kw))) (snd kw) in
      let t2 := add (Sigma0 a) (Maj a b c) in
      [add t1 t2; a; b; c; add d t1; e; f; g]
  | _ => st
  end.

Definition block (st : list Z) (blk : list Z) : list Z :=
  let w := schedule 48%nat (words 16%nat blk) in
  zip_with add st (foldl round st (zip K w)).

Fixpoint blocks (fuel : nat) (st : list Z) (bs : list Z) : list Z :=
  match fuel, bs with
  | S fuel', _ :: _ => blocks fuel' (block st (take 64%nat bs)) (drop 64%nat bs)
  | _, _ => st
  end.

(** the 32 bytes of the digest *)
Definition Sum (msg : list Z) : list Z :=
  let padded := pad msg in
  blocks (length padded) init padded ≫= be_bytes 4%nat.

End sha256.

(** [encoding/base64]: [StdEncoding.EncodeToString] *)
Module base64.

Local Open Scope Z_scope.

Definition alphabet : string :=
  "ABCDEFGHIJKLMNOPQRSTUVWXYZabcdefghijklmnopqrstuvwxyz0123456789+/".

Definition enc (v : Z) : ascii :=
  match String.get (Z.to_nat (v mod 64)) alphabet with
  | Some c => c
  | None => "="%char
  end.

Fixpoint encode (fuel : nat) (bs : list Z) : string :=
  match fuel, bs with
  | S fuel', b0 :: b1 :: b2 :: rest =>
      let v := Z.shiftl b0 16 + Z.shiftl b1 8 + b2 in
      String (enc (Z.shiftr v 18)) (String (enc (Z.shiftr v 12))
        (String (enc (Z.shiftr v 6)) (String (enc v) (encode fuel' rest))))
  | S _, [b0; b1] =>
      let v := Z.shiftl b0 16 + Z.shiftl b1 8 in
      String (enc (Z.shiftr v 18)) (String (enc (Z.shiftr v 12))
        (String (enc (Z.shiftr v 6)) "="))
  | S _, [b0] =>
      let v := Z.shiftl b0 16 in
      String (enc (Z.shiftr v 18)) (String (enc (Z.shiftr v 12)) "==")
  | _, _ => ""
  end.

Definition EncodeToString (bs : list Z) : string := encode (length bs) bs.

End base64.

(** [encoding/json]: what [Encoder.Encode] writes for a [Query], with the
    encoder's default HTML escaping *)
Module json.

Definition quote : string := String "034"%char EmptyString.
Definition backslash : string := String "092"%char EmptyString.

Definition hex (v : Z) : string :=
  match String.get (Z.to_nat (v mod 16)) "0123456789abcdef" with
  | Some c => String c EmptyString
  | None => ""
  end.

Definition RuneError : Z := 0xFFFD.

(** [utf8.DecodeRuneInString] on a string whose first byte is [b0]
    and whose other bytes are [rest]: the rune and its width, or
    [(RuneError, 1)] where the encoding is not valid *)
Definition DecodeRune (b0 : Z) (rest : list Z) : Z * nat :=
  let bad := (RuneError, 1%nat) in
  let cont (b : Z) : bool := (0x80 <=? b)%Z && (b <=? 0xBF)%Z in
  let low6 (b : Z) : Z := Z.land b 0x3F in
  let two (lo hi : Z) :=
    match rest with
    | b1 :: _ =>
        if (lo <=? b1)%Z && (b1 <=? hi)%Z then
          (Z.lor (Z.shiftl (Z.land b0 0x1F) 6) (low6 b1), 2%nat)
        else bad
    | _ => bad
    end in
  let three (lo hi : Z) :=
    match rest with
    | b1 :: b2 :: _ =>
        if (lo <=? b1)%Z && (b1 <=? hi)%Z && cont b2 then
          (Z.lor (Z.shiftl (Z.land b0 0x0F) 12)
             (Z.lor (Z.shiftl (low6 b1) 6) (low6 b2)), 3%nat)
        else bad
    | _ => bad
    end in
  let four (lo hi : Z) :=
    match rest with
    | b1 :: b2 :: b3 :: _ =>
        if (lo <=? b1)%Z && (b1 <=? hi)%Z && cont b2 && cont b3 then
          (Z.lor (Z.shiftl (Z.land b0 0x07) 18)
             (Z.lor (Z.shiftl (low6 b1) 12)
                (Z.lor (Z.shiftl (low6 b2) 6) (low6 b3))), 4%nat)
        else bad
    | _ => bad
    end in
  if (b0 <? 0x80)%Z then (b0, 1%nat)
  else if (b0 <? 0xC2)%Z then bad
  else if (b0 <? 0xE0)%Z then two 0x80%Z 0xBF%Z
  else if (b0 =? 0xE0)%Z then three 0xA0%Z 0xBF%Z
  else if (b0 =? 0xED)%Z then three 0x80%Z 0x9F%Z
  else if (b0 <? 0xF0)%Z then three 0x80%Z 0xBF%Z
  else if (b0 =? 0xF0)%Z then four 0x90%Z 0xBF%Z
  else if (b0 <? 0xF4)%Z then four 0x80%Z 0xBF%Z
  else if (b0 =? 0xF4)%Z then four 0x80%Z 0x8F%Z
  else bad.

(** a byte below 0x80 that is copied as it is ([htmlSafeSet]) *)
Definition htmlSafe (b : Z) : bool :=
  (0x20 <=? b)%Z &&
  negb ((b =? 34)%Z || (b =? 38)%Z || (b =? 60)%Z || (b =? 62)%Z || (b =? 92)%Z).

Definition escapeByte (c : ascii) : string :=
  let b := Z.of_N (N_of_ascii c) in
  if htmlSafe b then String c EmptyString
  else if (b =? 92)%Z || (b =? 34)%Z then backslash +:+ String c EmptyString
  else if (b =? 8)%Z then backslash +:+ "b"
  else if (b =? 12)%Z then backslash +:+ "f"
  else if (b =? 10)%Z then backslash +:+ "n"
  else if (b =? 13)%Z then backslash +:+ "r"
  else if (b =? 9)%Z then backslash +:+ "t"
  else backslash +:+ "u00" +:+ hex (Z.shiftr b 4) +:+ hex b.

(** the loop of [appendString]; [fuel] bounds the bytes left *)
Fixpoint escape (fuel : nat) (s : string) : string :=
  match fuel, s with
  | S fuel', String c rest =>
      let b := Z.of_N (N_of_ascii c) in
      if (b <? 0x80)%Z then escapeByte c +:+ escape fuel' rest
      else
        let '(r, size) := DecodeRune b (bytes rest) in
        if (r =? RuneError)%Z && Nat.eqb size 1 then
          backslash +:+ "ufffd" +:+ escape fuel' rest
        else if (r =? 0x2028)%Z || (r =? 0x2029)%Z then
          backslash +:+ "u202" +:+ hex r +:+ escape fuel' (Str.drop size s)
        else
          Str.take size s +:+ escape fuel' (Str.drop size s)
  | _, _ => ""
  end.

Definition appendString (s : string) : string :=
  quote +:+ escape (String.length s) s +:+ quote.

Definition appendBool (b : bool) : string := if b then "true" else "false".

Definition field (name value : string) : string :=
  quote +:+ name +:+ quote +:+ ":" +:+ value.

(** the exported fields of [Query] in the order of their declaration,
    then the newline that [Encode] adds *)
Definition Encode (q : Query) : string :=
  "{" +:+ field "User" (appendString (User q))
  +:+ "," +:+ field "Program" (appendString (Program q))
  +:+ "," +:+ field "AsProgram" (appendString (AsProgram q))
  +:+ "," +:+ field "Release" (appendString (Release q))
  +:+ "," +:+ field "MoveToPath" (appendBool (MoveToPath q))
  +:+ "," +:+ field "Google" (appendBool (Google q))
  +:+ "," +:+ field "Insecure" (appendBool (Insecure q))
  +:+ "," +:+ field "SudoMove" (appendBool (SudoMove q))
  +:+ "}" +:+ http.newline.

End json.

(** [Encode] on a struct of strings and booleans returns no error, so
    line 54 is not reached *)
Definition cacheKey (q : Query) : string :=
  base64.EncodeToString (sha256.Sum (bytes (json.Encode q))).

(** * The vocabulary of the statements *)

(** the input does not go on with a character of the class *)
Definition stops (p : ascii -> bool) (s : string) : Prop :=
  match s with
  | String c _ => p c = false
  | EmptyString => True
  end.

(** the input does not go on with [/] *)
Definition noSlash (s : string) : Prop :=
  match s with
  | String c _ => c <> "/"%char
  | EmptyString => True
  end.

(** a name of 1 to 128 characters of a class *)
Definition validName (cls : ascii -> bool) (s : string) : bool :=
  (1 <=? String.length s) && (String.length s <=? 128) && Str.all cls s.

(** what [releaseRe] takes of the text after the program name: the first
    character of a tag after [@] *)
Definition releaseOf (rest : string) : string :=
  match rest with
  | String a (String c _) =>
      if Ascii.eqb a "@" && releaseClass c then String c "" else ""
  | _ => ""
  end.

(** the end of every attempt: the offset reached and the whole match *)
Definition finish (pos : nat) (s : string) : cont (nat * captures) :=
  fun e _ caps => Some (e, <[0 := Str.take (e - pos) s]> caps).

(** the groups of a match, as [FindStringSubmatch] lists them *)
Definition groups (n : nat) (caps : captures) : list string :=
  (fun i => default "" (caps !! i)) <$> seq 0 (S n).

(** the first bytes of [s], in lower case, are [prefix] *)
Definition hasPrefixFold (s prefix : string) : bool :=
  String.eqb (Str.lower (Str.take (String.length prefix) s)) prefix.

(** the types of the switch of lines 96-112 *)
Definition knownType (qtype : string) : bool :=
  String.eqb qtype "script" || String.eqb qtype "homebrew" ||
  String.eqb qtype "ruby" || String.eqb qtype "text".

(** the Content-Type of a type *)
Definition contentTypeOf (qtype : string) : string :=
  if String.eqb qtype "script" then "text/x-shellscript"
  else if String.eqb qtype "homebrew" || String.eqb qtype "ruby" then "text/ruby"
  else if String.eqb qtype "text" then "text/plain"
  else "".

(** the body of an error response: the kept characters of the message,
    inside [echo '...'] for a script, and the newline of [http.Error] *)
Definition errorBody (qtype msg : string) : string :=
  (if String.eqb qtype "script"
   then "echo '" +:+ Str.filter errMsgKeep msg +:+ "'"
   else Str.filter errMsgKeep msg) +:+ http.newline.

(** the writer after line 98, 102 or 106 *)
Definition typed (qtype : string) : http.ResponseWriter :=
  http.withHeader http.fresh
    (http.Set_ (http.header http.fresh) "Content-Type" (contentTypeOf qtype)).

(** how a request ends *)
Inductive served (env : Env) (cfg : Config.t) (r : http.Request)
    : http.ResponseWriter -> list Event -> Prop :=
| served_healthz :
    http.URL_Path r = "/healthz" ->
    served env cfg r (http.mkResponseWriter ∅ (Some 200) "OK") []
| served_unknown_type :
    http.URL_Path r <> "/healthz" ->
    knownType (responseType r) = false ->
    served env cfg r
      (showError (responseType r) http.fresh "Unknown type" 500) []
| served_redirect :
    http.URL_Path r = "/" ->
    knownType (responseType r) = true ->
    valid (buildQuery cfg r) = false ->
    served env cfg r
      (http.Redirect (typed (responseType r)) r homepage 301) []
| served_invalid :
    http.URL_Path r <> "/healthz" -> http.URL_Path r <> "/" ->
    knownType (responseType r) = true ->
    valid (buildQuery cfg r) = false ->
    served env cfg r
      (showError (responseType r) (typed (responseType r)) "Invalid path" 400)
      []
| served_error msg code events :
    http.URL_Path r <> "/healthz" ->
    knownType (responseType r) = true ->
    valid (buildQuery cfg r) = true ->
    events <> [] ->
    served env cfg r
      (showError (responseType r) (typed (responseType r)) msg code) events
| served_script buff events :
    http.URL_Path r <> "/healthz" ->
    knownType (responseType r) = true ->
    valid (buildQuery cfg r) = true ->
    served env cfg r (http.Write_ (typed (responseType r)) buff) events.

(** ** A concrete environment, to run the handler on requests *)

Module demo.

(** a configuration with a default user and nothing forced *)
Definition config : Config.t := Config.mk "jpillora" "" "" "".

(** an upstream that has every release, without assets *)
Definition found (q : Query) : Result + error :=
  inl (mkResult q 0 [] false).

(** an upstream that has no release *)
Definition missing (q : Query) : Result + error :=
  inr (wrapError "not found: url https://api.github.com/repos" errNotFound).

(** templates that render to their own text *)
Definition env (execute : Query -> Result + error) : Env :=
  mkEnv "#!/bin/sh" "class Installer" "installer" execute
        string (fun script => inl script) (fun t _ => inl t).

(** a GET request with a type parameter (if not empty) and a User-Agent *)
Definition request (path type ua : string) : http.Request :=
  http.mkRequest "GET" path
    (if String.eqb type "" then ∅ else {["type" := [type]]})
    {["User-Agent" := [ua]]}.

End demo.

(** ** The vocabulary of the further properties *)

(** the captures after the program and the release *)
Definition routeCaptures (whole p rest : string) (caps : captures) : captures :=
  <[0 := whole]>
    (if decide (releaseOf rest = "") then <[3 := p]> caps
     else <[4 := "@" +:+ releaseOf rest]>
            (<[5 := releaseOf rest]> (<[3 := p]> caps))).


(** the queries that [h.execute] was called on *)
Definition executed (events : list Event) : list Query :=
  omap (fun e => match e with EvExecute q => Some q | _ => None end) events.

(** the lines that were logged *)
Definition logged (events : list Event) : list string :=
  omap (fun e => match e with EvLog line => Some line | _ => None end) events.

(** [errors.Unwrap]: the error that [%w] wrapped *)
Definition Unwrap (e : error) : option error :=
  match e with
  | wrapError _ inner => Some inner
  | errorString _ => None
  end.

(** no [/] in the string *)
Definition slashFree (s : string) : bool :=
  Str.all (fun c => negb (Ascii.eqb c "/")) s.

(** a character of the alphabet of [base64.StdEncoding] *)
Definition isBase64 (c : ascii) : bool :=
  Str.is_upper c || Str.is_lower c || Str.is_digit c
  || Ascii.eqb c "+" || Ascii.eqb c "/".

(** a string that [encoding/json] copies as it is: ASCII, no control
    character, and none of the quote, the backslash, [&], [<] and [>] *)
Definition plain (s : string) : bool :=
  Str.all (fun c => (Z.of_N (N_of_ascii c) <? 0x80)%Z
                    && json.htmlSafe (Z.of_N (N_of_ascii c))) s.


(** the longest prefix of characters of a class *)
Fixpoint span (cls : ascii -> bool) (s : string) : string :=
  match s with
  | String c s' => if cls c then String c (span cls s') else ""
  | EmptyString => ""
  end.

(** the name at the start of a text: its run of name characters, cut
    to 128 characters; and the text after the name *)
Definition nameOf (s : string) : string := Str.take 128 (span repoClass s).

Definition afterName (s : string) : string :=
  Str.drop (String.length (nameOf s)) s.

(** the user, the program and the release of a path, read off the path
    without the regular expression: a name after the first [/] is the
    user if [/] and a second name follow it, and else the program *)
Definition routeNames (path : string) : string * string * string :=
  match path with
  | String c s =>
      if negb (Ascii.eqb c "/") || String.eqb (nameOf s) "" then ("", "", "")
      else
        match afterName s with
        | String d s2 =>
            if Ascii.eqb d "/" && negb (String.eqb (nameOf s2) "")
            then (nameOf s, nameOf s2, releaseOf (afterName s2))
            else ("", nameOf s, releaseOf (afterName s))
        | EmptyString => ("", nameOf s, releaseOf (afterName s))
        end
  | EmptyString => ("", "", "")
  end.

(** the text after a program name starts no second name: it does not
    go on with [/] and a name character *)
Definition noOwner (rest : string) : Prop :=
  match rest with
  | String c s2 => c = "/"%char -> stops repoClass s2
  | EmptyString => True
  end.

(** * Properties *)

Ltac map_lookups :=
  repeat first
    [ rewrite lookup_insert_eq
    | rewrite lookup_insert_ne by done
    | rewrite lookup_empty ];
  cbn [default from_option].

(** ** Strings *)

Lemma app_String c s t : String c s +:+ t = String c (s +:+ t).
Proof. reflexivity. Qed.

Lemma app_empty_r s : s +:+ "" = s.
Proof. induction s as [|c s IH]; [done|]. by rewrite app_String, IH. Qed.

Lemma app_assoc_str s t u : (s +:+ t) +:+ u = s +:+ t +:+ u.
Proof. induction s as [|c s IH]; [done|]. by rewrite !app_String, IH. Qed.

Lemma take_length u rest : Str.take (String.length u) (u +:+ rest) = u.
Proof.
  induction u as [|c u IH]; [by destruct rest|].
  rewrite app_String. simpl. by rewrite IH.
Qed.

Lemma take_span pos u rest :
  Str.take (pos + String.length u - pos) (u +:+ rest) = u.
Proof.
  replace (pos + String.length u - pos) with (String.length u) by lia.
  apply take_length.
Qed.

Lemma filter_app p s t :
  Str.filter p (s +:+ t) = Str.filter p s +:+ Str.filter p t.
Proof.
  induction s as [|c s IH]; [done|].
  rewrite app_String. simpl. destruct (p c); by rewrite ?app_String, IH.
Qed.

Lemma filter_all p s : Str.all p s = true -> Str.filter p s = s.
Proof.
  induction s as [|c s IH]; [done|]. simpl.
  intros [Hc Hs]%andb_prop. rewrite Hc. by rewrite IH.
Qed.

Lemma all_filter p s : Str.all p (Str.filter p s) = true.
Proof.
  induction s as [|c s IH]; [done|]. simpl.
  destruct (p c) eqn:Hc; [|done]. simpl. by rewrite Hc.
Qed.

(** ** The matcher *)

Section Matcher.
Context {T : Type}.
Implicit Types (k : cont T) (caps : captures) (s u rest : string).

Lemma run_Opt r pos s caps k :
  run (Opt r) pos s caps k =
  match run r pos s caps k with
  | Some x => Some x
  | None => k pos s caps
  end.
Proof. reflexivity. Qed.

Lemma run_Rep r lo hi greedy pos s caps k :
  run (Rep r lo hi greedy) pos s caps k =
  iterate (run r) lo greedy k hi 0 pos s caps.
Proof. reflexivity. Qed.

Lemma run_Class_String p pos c s caps k :
  run (Class p) pos (String c s) caps k =
  if p c then k (S pos) s caps else None.
Proof. reflexivity. Qed.

Lemma run_Lit_String a pos c s caps k :
  run (Lit a) pos (String c s) caps k =
  if Ascii.eqb c a then k (S pos) s caps else None.
Proof. reflexivity. Qed.

Lemma iterate_S step lo greedy k fuel done pos s caps :
  iterate step lo greedy k (S fuel) done pos s caps =
  if greedy then
    match step pos s caps (iterate step lo greedy k fuel (S done)) with
    | Some x => Some x
    | None => if (lo <=? done)%nat then k pos s caps else None
    end
  else
    match (if (lo <=? done)%nat then k pos s caps else None) with
    | Some x => Some x
    | None => step pos s caps (iterate step lo greedy k fuel (S done))
    end.
Proof. reflexivity. Qed.

(** A greedy repetition of a class takes the whole run of characters
    of the class, when the rest of the expression matches after it. *)
Lemma iterate_greedy_span p lo k u rest x :
  forall fuel done pos caps,
  Str.all p u = true ->
  String.length u <= fuel ->
  fuel = String.length u \/ stops p rest ->
  lo <= done + String.length u ->
  k (pos + String.length u) rest caps = Some x ->
  iterate (run (Class p)) lo true k fuel done pos (u +:+ rest) caps = Some x.
Proof.
  induction u as [|c u IH]; intros fuel done pos caps Hall Hlen Hstop Hlo Hk.
  - simpl in *. rewrite Nat.add_0_r in Hk, Hlo.
    apply Nat.leb_le in Hlo.
    destruct fuel as [|fuel]; simpl; rewrite Hlo; [done|].
    destruct Hstop as [?|Hstop]; [done|].
    destruct rest as [|a rest]; simpl; [done|].
    simpl in Hstop. by rewrite Hstop.
  - simpl in Hall. apply andb_prop in Hall as [Hc Hall].
    destruct fuel as [|fuel]; [simpl in Hlen; lia|].
    rewrite app_String, iterate_S, run_Class_String, Hc.
    rewrite (IH fuel (S done) (S pos) caps); try done.
    + simpl in Hlen. lia.
    + destruct Hstop as [Hstop|?]; [left|by right]. simpl in Hstop. lia.
    + simpl in Hlo. lia.
    + simpl in Hk.
      by replace (S pos + String.length u)
           with (pos + S (String.length u)) by lia.
Qed.

(** A non-greedy repetition with a minimum of one takes one character
    when the rest of the expression matches after it. *)
Lemma iterate_lazy_one p k c rest x fuel pos caps :
  p c = true ->
  k (S pos) rest caps = Some x ->
  iterate (run (Class p)) 1 false k (S fuel) 0 pos (String c rest) caps
  = Some x.
Proof.
  intros Hc Hk. rewrite iterate_S, run_Class_String, Hc.
  destruct fuel as [|fuel]; [by simpl|]. rewrite iterate_S. simpl.
  by rewrite Hk.
Qed.

(** A repetition fails when the rest of the expression fails after
    every number of iterations. *)
Lemma iterate_None p lo greedy k :
  forall fuel done pos s caps,
  (forall n, n <= fuel -> Str.all p (Str.take n s) = true ->
             k (pos + n) (Str.drop n s) caps = None) ->
  iterate (run (Class p)) lo greedy k fuel done pos s caps = None.
Proof.
  induction fuel as [|fuel IH]; intros done pos s caps Hk.
  - simpl. specialize (Hk 0). rewrite Nat.add_0_r in Hk.
    destruct s; simpl in Hk; rewrite Hk; by try case_match.
  - assert (k pos s caps = None) as Hk0.
    { specialize (Hk 0). rewrite Nat.add_0_r in Hk.
      destruct s; simpl in Hk; apply Hk; done || lia. }
    assert (run (Class p) pos s caps
              (iterate (run (Class p)) lo greedy k fuel (S done)) = None)
      as Hmore.
    { destruct s as [|c s]; [done|]. rewrite run_Class_String.
      destruct (p c) eqn:Hc; [|done].
      apply IH. intros n Hn Hall.
      specialize (Hk (S n)). simpl in Hk. rewrite Hc in Hk.
      replace (S pos + n) with (pos + S n) by lia. apply Hk; [lia|done]. }
    rewrite iterate_S, Hmore, Hk0. by destruct greedy, (lo <=? done).
Qed.

End Matcher.

(** a search at an offset other than 0 fails on an expression that starts
    with [^] *)
Lemma search_Bol r s : forall pos, 0 < pos -> search (Cat Bol r) pos s = None.
Proof.
  induction s as [|c s IH]; intros pos Hpos; simpl;
    unfold attempt; simpl; destruct pos; try lia; simpl; [done|].
  apply IH. lia.
Qed.

Lemma search_Bol_0 r s :
  search (Cat Bol r) 0 s =
  match attempt (Cat Bol r) 0 s with
  | Some (e, caps) => Some (0, e, caps)
  | None => None
  end.
Proof.
  destruct s as [|c s]; simpl; destruct (attempt _ _ _) as [[e caps]|]; try done.
  apply search_Bol. lia.
Qed.

(** ** The path expression *)

Section MatcherEquations.
Context {T : Type}.
Implicit Types (k : cont T) (caps : captures) (s : string).

Lemma run_Cat r1 r2 pos s caps k :
  run (Cat r1 r2) pos s caps k =
  run r1 pos s caps (fun pos' s' caps' => run r2 pos' s' caps' k).
Proof. reflexivity. Qed.

Lemma run_Cap i r pos s caps k :
  run (Cap i r) pos s caps k =
  run r pos s caps
    (fun pos' s' caps' => k pos' s' (<[i := Str.take (pos' - pos) s]> caps')).
Proof. reflexivity. Qed.

Lemma run_Bol_0 s caps k : run Bol 0 s caps k = k 0 s caps.
Proof. reflexivity. Qed.

Lemma orelse_Some (e f : option T) v :
  e = Some v -> match e with Some x => Some x | None => f end = Some v.
Proof. by intros ->. Qed.

Lemma orelse_None (e f : option T) :
  e = None -> match e with Some x => Some x | None => f end = f.
Proof. by intros ->. Qed.

End MatcherEquations.

Lemma validName_spec cls s :
  validName cls s = true ->
  1 <= String.length s /\ String.length s <= 128 /\ Str.all cls s = true.
Proof.
  unfold validName. intros [[H1 H2]%andb_prop H3]%andb_prop.
  apply Nat.leb_le in H1, H2. done.
Qed.

(** The optional release group, followed by the end of the expression. *)
Lemma run_releaseRe {T} (k : cont T) pos rest caps :
  (forall pos' s' caps', is_Some (k pos' s' caps')) ->
  run releaseRe pos rest caps k =
  if decide (releaseOf rest = "") then k pos rest caps
  else k (S (S pos)) (Str.drop 2 rest)
         (<[4 := "@" +:+ releaseOf rest]> (<[5 := releaseOf rest]> caps)).
Proof.
  intros Hk. unfold releaseRe. rewrite run_Opt.
  destruct rest as [|a [|c t]].
  - done.
  - rewrite run_Cap, run_Cat, run_Lit_String. by destruct (Ascii.eqb a "@").
  - rewrite run_Cap, run_Cat, run_Lit_String. unfold releaseOf.
    destruct (Ascii.eqb a "@") eqn:Ha; [|done].
    apply Ascii.eqb_eq in Ha as ->.
    rewrite run_Cap, run_Rep. simpl andb.
    destruct (releaseClass c) eqn:Hc.
    + destruct (Hk (S (S pos)) t
        (<[4 := "@" +:+ String c ""]> (<[5 := String c ""]> caps))) as [x Hx].
      rewrite decide_False by done. cbn [Str.drop]. rewrite Hx.
      erewrite iterate_lazy_one; [done|done|].
      replace (S (S pos) - S pos) with 1 by lia.
      replace (S (S pos) - pos) with 2 by lia. done.
    + rewrite decide_True by done.
      by rewrite iterate_S, run_Class_String, Hc.
Qed.

Lemma app_lit c s : String c "" +:+ s = String c s.
Proof. reflexivity. Qed.

Lemma finish_is_Some pos s pos' s' caps' : is_Some (finish pos s pos' s' caps').
Proof. by eexists. Qed.

Lemma FindStringSubmatch_Bol r s e caps :
  attempt (Cat Bol r) 0 s = Some (e, caps) ->
  FindStringSubmatch (Cat Bol r) s = groups (NumSubexp (Cat Bol r)) caps.
Proof.
  intros H. unfold FindStringSubmatch. by rewrite search_Bol_0, H.
Qed.

(** The program name and what follows it, from the [/] before it on. *)
Lemma run_repo_release pos p rest caps path :
  validName repoClass p = true ->
  stops repoClass rest ->
  run (Cat (Lit "/") (Cat repoRe releaseRe)) pos
      (String "/" (p +:+ rest)) caps (finish 0 path) =
  let caps := <[3 := p]> caps in
  let e := S pos + String.length p in
  if decide (releaseOf rest = "") then finish 0 path e rest caps
  else finish 0 path (S (S e)) (Str.drop 2 rest)
         (<[4 := "@" +:+ releaseOf rest]> (<[5 := releaseOf rest]> caps)).
Proof.
  intros (Hp1 & Hp2 & Hp)%validName_spec Hstop.
  rewrite run_Cat, run_Lit_String, Ascii.eqb_refl, run_Cat.
  unfold repoRe. rewrite run_Cap, run_Rep.
  pose proof (run_releaseRe (finish 0 path) (S pos + String.length p) rest
                (<[3 := p]> caps) (finish_is_Some 0 path)) as Hrel.
  cbv zeta.
  destruct (decide (releaseOf rest = "")) as [Hr|Hr].
  - apply iterate_greedy_span; [done|simpl; lia|by right|simpl; lia|].
    by rewrite take_span.
  - destruct (finish_is_Some 0 path (S (S (S pos + String.length p)))
                (Str.drop 2 rest)
                (<[4 := "@" +:+ releaseOf rest]>
                   (<[5 := releaseOf rest]> (<[3 := p]> caps)))) as [x Hx].
    rewrite Hx. apply iterate_greedy_span; [done|simpl; lia|by right|simpl; lia|].
    by rewrite take_span, Hrel, Hx.
Qed.

(** A path with an owner: [/user/program] and what follows. *)
Lemma attempt_pathRe_owner u p rest :
  validName userClass u = true ->
  validName repoClass p = true ->
  stops repoClass rest ->
  exists e caps,
    attempt pathRe 0 ("/" +:+ u +:+ "/" +:+ p +:+ rest) = Some (e, caps) /\
    groups 5 caps =
      [ Str.take e ("/" +:+ u +:+ "/" +:+ p +:+ rest); "/" +:+ u; u; p;
        (if decide (releaseOf rest = "") then "" else "@" +:+ releaseOf rest);
        releaseOf rest ].
Proof.
  intros Hu Hp Hstop.
  pose proof Hu as (Hu1 & Hu2 & Hua)%validName_spec.
  rewrite app_lit. set (path := String "/" _).
  unfold attempt, pathRe.
  change (fun e _ caps => Some (e, <[0 := Str.take (e - 0) path]> caps))
    with (finish 0 path).
  rewrite run_Cat, run_Bol_0, run_Cat. unfold userRe. rewrite run_Opt.
  rewrite run_Cap, run_Cat. unfold path at 1.
  rewrite run_Lit_String, Ascii.eqb_refl, run_Cap, run_Rep.
  pose proof (run_repo_release (1 + String.length u) p rest
    (<[1 := "/" +:+ u]> (<[2 := u]> ∅)) path Hp Hstop) as Hrr.
  cbv zeta in Hrr.
  assert (Str.take (1 + String.length u - 0) path = "/" +:+ u) as Hpre.
  { unfold path. rewrite app_lit. simpl. f_equal. apply take_length. }
  destruct (decide (releaseOf rest = "")) as [Hr|Hr].
  - eexists _, _. split.
    + apply orelse_Some.
      apply iterate_greedy_span; [done|simpl; lia|by right|simpl; lia|].
      rewrite take_span, app_lit, Hpre, Hrr. unfold finish. reflexivity.
    + unfold groups. cbn [seq fmap list_fmap]. map_lookups.
      by rewrite Nat.sub_0_r, Hr.
  - eexists _, _. split.
    + apply orelse_Some.
      apply iterate_greedy_span; [done|simpl; lia|by right|simpl; lia|].
      rewrite take_span, app_lit, Hpre, Hrr. unfold finish. reflexivity.
    + unfold groups. cbn [seq fmap list_fmap]. map_lookups.
      by rewrite Nat.sub_0_r.
Qed.

(** [[\w\-]] and [[\w\-\_]] are the same class: [\w] has [_] *)
Lemma userClass_repoClass c : userClass c = repoClass c.
Proof.
  unfold userClass, repoClass, word.
  by destruct (Str.is_digit c), (Str.is_upper c), (Str.is_lower c),
       (Ascii.eqb c "_"), (Ascii.eqb c "-").
Qed.

Lemma repoClass_noSlash c s : repoClass c = true -> noSlash (String c s).
Proof. intros Hc ->. done. Qed.

Lemma noSlash_drop p rest :
  forall n,
  Str.all repoClass p = true -> stops repoClass rest -> noSlash rest ->
  Str.all userClass (Str.take n (p +:+ rest)) = true ->
  noSlash (Str.drop n (p +:+ rest)).
Proof.
  induction p as [|a p IH]; intros n Hp Hstop Hrest Hn.
  - change ("" +:+ rest) with rest in *.
    destruct n as [|n]; [by destruct rest|].
    destruct rest as [|c rest]; [done|].
    simpl in Hn, Hstop. rewrite userClass_repoClass, Hstop in Hn. done.
  - rewrite app_String in *. simpl in Hp. apply andb_prop in Hp as [Ha Hp].
    destruct n as [|n]; [by apply repoClass_noSlash|].
    simpl in Hn. apply andb_prop in Hn as [_ Hn]. simpl. by apply IH.
Qed.

Lemma run_slash_None {T} r pos s caps (k : cont T) :
  noSlash s -> run (Cat (Lit "/") r) pos s caps k = None.
Proof.
  intros Hs. rewrite run_Cat. destruct s as [|c s]; [done|].
  rewrite run_Lit_String. simpl in Hs.
  by destruct (Ascii.eqb_spec c "/").
Qed.

(** A path without an owner: [/program] and what follows. *)
Lemma attempt_pathRe_no_owner p rest :
  validName repoClass p = true ->
  stops repoClass rest ->
  noSlash rest ->
  exists e caps,
    attempt pathRe 0 ("/" +:+ p +:+ rest) = Some (e, caps) /\
    groups 5 caps =
      [ Str.take e ("/" +:+ p +:+ rest); ""; ""; p;
        (if decide (releaseOf rest = "") then "" else "@" +:+ releaseOf rest);
        releaseOf rest ].
Proof.
  intros Hp Hstop Hrest.
  pose proof Hp as (Hp1 & Hp2 & Hpa)%validName_spec.
  rewrite app_lit. set (path := String "/" _).
  unfold attempt, pathRe.
  change (fun e _ caps => Some (e, <[0 := Str.take (e - 0) path]> caps))
    with (finish 0 path).
  rewrite run_Cat, run_Bol_0, run_Cat. unfold userRe. rewrite run_Opt.
  rewrite orelse_None.
  - unfold path at 1. rewrite (run_repo_release 0 p rest ∅ path Hp Hstop).
    cbv zeta. unfold finish.
    destruct (decide (releaseOf rest = "")) as [Hr|Hr]; eexists _, _;
      (split; [reflexivity|]);
      unfold groups; cbn [seq fmap list_fmap]; map_lookups;
      by rewrite Nat.sub_0_r, ?Hr.
  - rewrite run_Cap, run_Cat. unfold path at 1.
    rewrite run_Lit_String, Ascii.eqb_refl, run_Cap, run_Rep.
    apply iterate_None. intros n _ Hn.
    apply run_slash_None. by apply noSlash_drop.
Qed.

(** the groups of [pathRe] on some paths *)
Example pathRe_examples :
  FindStringSubmatch pathRe "/jpillora/serve@v1.2.3" =
    ["/jpillora/serve@v"; "/jpillora"; "jpillora"; "serve"; "@v"; "v"] /\
  FindStringSubmatch pathRe "/jpillora/serve" =
    ["/jpillora/serve"; "/jpillora"; "jpillora"; "serve"; ""; ""] /\
  FindStringSubmatch pathRe "/micro!" = ["/micro"; ""; ""; "micro"; ""; ""] /\
  FindStringSubmatch pathRe "/" = [] /\
  FindStringSubmatch pathRe "//" = [].
Proof. vm_compute. by repeat split. Qed.

(** ** The query from the route *)

Lemma routeQuery_groups r e caps :
  attempt pathRe 0 (http.URL_Path r) = Some (e, caps) ->
  User (routeQuery r) = default "" (caps !! 2) /\
  Program (routeQuery r) = default "" (caps !! 3) /\
  Release (routeQuery r) = default "" (caps !! 5).
Proof.
  intros H. unfold routeQuery, pathRe in *.
  rewrite (FindStringSubmatch_Bol _ _ _ _ H). done.
Qed.

Lemma routeQuery_owner r u p rest :
  http.URL_Path r = "/" +:+ u +:+ "/" +:+ p +:+ rest ->
  validName userClass u = true ->
  validName repoClass p = true ->
  stops repoClass rest ->
  User (routeQuery r) = u /\ Program (routeQuery r) = p /\
  Release (routeQuery r) = releaseOf rest.
Proof.
  intros Hpath Hu Hp Hstop.
  destruct (attempt_pathRe_owner u p rest Hu Hp Hstop) as (e & caps & He & Hg).
  rewrite <-Hpath in He.
  destruct (routeQuery_groups r e caps He) as (-> & -> & ->).
  unfold groups in Hg. cbn [seq fmap list_fmap] in Hg.
  by injection Hg as _ _ -> -> _ ->.
Qed.

Lemma routeQuery_no_owner r p rest :
  http.URL_Path r = "/" +:+ p +:+ rest ->
  validName repoClass p = true ->
  stops repoClass rest ->
  noSlash rest ->
  User (routeQuery r) = "" /\ Program (routeQuery r) = p /\
  Release (routeQuery r) = releaseOf rest.
Proof.
  intros Hpath Hp Hstop Hrest.
  destruct (attempt_pathRe_no_owner p rest Hp Hstop Hrest)
    as (e & caps & He & Hg).
  rewrite <-Hpath in He.
  destruct (routeQuery_groups r e caps He) as (-> & -> & ->).
  unfold groups in Hg. cbn [seq fmap list_fmap] in Hg.
  by injection Hg as _ _ -> -> _ ->.
Qed.

(** ** Replacing a class by nothing is filtering *)

Lemma length_app_str s t :
  String.length (s +:+ t) = String.length s + String.length t.
Proof. induction s as [|c s IH]; [done|]. rewrite app_String. simpl. lia. Qed.

Lemma drop_S_span pos pre c post :
  Str.drop (S (pos + String.length pre) - pos) (pre +:+ String c post) = post.
Proof.
  replace (S (pos + String.length pre) - pos) with (S (String.length pre))
    by lia.
  induction pre as [|a pre IH]; [done|]. by rewrite app_String.
Qed.

Section ReplaceClass.
Context (keep q : ascii -> bool).
Context (Hq : forall c, q c = negb (keep c)).

(** the leftmost match of a class is the first character of the class *)
Lemma search_Class s :
  forall pos,
  match search (Class q) pos s with
  | None => Str.all keep s = true
  | Some (a0, a1, _) =>
      exists pre c post,
        s = pre +:+ String c post /\ Str.all keep pre = true /\
        keep c = false /\ a0 = pos + String.length pre /\ a1 = S a0
  end.
Proof.
  induction s as [|c s IH]; intros pos; [done|].
  cbn [search]. unfold attempt. rewrite run_Class_String, Hq.
  destruct (keep c) eqn:Hc; cbn [negb].
  - specialize (IH (S pos)).
    destruct (search (Class q) (S pos) s) as [[[a0 a1] caps]|].
    + destruct IH as (pre & c' & post & -> & Hpre & Hc' & -> & ->).
      exists (String c pre), c', post. simpl. rewrite Hc, Hpre.
      repeat split; try done; lia.
    + simpl. by rewrite Hc, IH.
  - exists "", c, s. simpl. repeat split; try done; lia.
Qed.

Lemma replaceAll_Class fuel :
  forall pos fresh s,
  String.length s < fuel ->
  replaceAll (Class q) "" fuel pos fresh s = Str.filter keep s.
Proof.
  induction fuel as [|fuel IH]; intros pos fresh s Hlen; [lia|].
  cbn [replaceAll]. pose proof (search_Class s pos) as Hs.
  destruct (search (Class q) pos s) as [[[a0 a1] caps]|].
  - destruct Hs as (pre & c & post & -> & Hpre & Hc & -> & ->).
    rewrite length_app_str in Hlen. simpl in Hlen.
    assert ((pos + String.length pre <? S (pos + String.length pre)) = true)
      as -> by (apply Nat.ltb_lt; lia).
    rewrite take_span, drop_S_span, IH by lia.
    rewrite filter_app. simpl. rewrite Hc, (filter_all _ _ Hpre). done.
  - by rewrite filter_all.
Qed.

End ReplaceClass.

(** [errMsgRe.ReplaceAllString(msg, "")] keeps the characters of
    [A-Za-z0-9 :/.] in their order and drops every other one. *)
Lemma ReplaceAllString_errMsgRe msg :
  ReplaceAllString errMsgRe msg "" = Str.filter errMsgKeep msg.
Proof.
  unfold ReplaceAllString, errMsgRe.
  apply replaceAll_Class; [done|lia].
Qed.

(** ** The User-Agent expressions *)

Lemma to_lower_slash a :
  Ascii.eqb (Str.to_lower a) "/" = Ascii.eqb a "/".
Proof. by destruct a as [[] [] [] [] [] [] [] []]. Qed.

Lemma run_LitsI {T} p :
  forall pos s caps (k : cont T),
  run (LitsI p) pos s caps k =
  if String.eqb (Str.lower (Str.take (String.length p) s)) (Str.lower p)
  then k (pos + String.length p) (Str.drop (String.length p) s) caps
  else None.
Proof.
  induction p as [|c p IH]; intros pos s caps k.
  - simpl. by rewrite Nat.add_0_r.
  - cbn [LitsI]. rewrite run_Cat. unfold LitI at 1.
    destruct s as [|a s]; [done|].
    rewrite run_Class_String, IH. simpl.
    replace (pos + S (String.length p)) with (S pos + String.length p) by lia.
    by destruct (Ascii.eqb (Str.to_lower a) (Str.to_lower c)).
Qed.

Lemma hasPrefixFold_slash s p :
  hasPrefixFold s (p +:+ "/") =
  hasPrefixFold s p &&
  match Str.drop (String.length p) s with
  | String a _ => Ascii.eqb a "/"
  | EmptyString => false
  end.
Proof.
  unfold hasPrefixFold. revert s.
  induction p as [|c p IH]; intros [|a s]; try done.
  - simpl. rewrite to_lower_slash. destruct (Ascii.eqb a "/"); [|done].
    by destruct s.
  - rewrite app_String. simpl. rewrite IH.
    by destruct (Ascii.eqb (Str.to_lower a) c).
Qed.

Lemma run_Alt {T} r1 r2 pos s caps (k : cont T) :
  run (Alt r1 r2) pos s caps k =
  match run r1 pos s caps k with
  | Some x => Some x
  | None => run r2 pos s caps k
  end.
Proof. reflexivity. Qed.

Lemma MatchString_Bol r s :
  MatchString (Cat Bol r) s =
  match attempt (Cat Bol r) 0 s with Some _ => true | None => false end.
Proof.
  unfold MatchString. rewrite search_Bol_0.
  by destruct (attempt _ _ _) as [[e caps]|].
Qed.

(** [(?i)^(curl|wget)\/] matches the strings that start with [curl/] or
    [wget/] in any case. *)
Lemma MatchString_isTermRe ua :
  MatchString isTermRe ua =
  hasPrefixFold ua "curl/" || hasPrefixFold ua "wget/".
Proof.
  unfold isTermRe. rewrite MatchString_Bol. unfold attempt.
  rewrite run_Cat, run_Bol_0, run_Cat, run_Cap, run_Alt, !run_LitsI.
  change "curl/" with ("curl" +:+ "/"). change "wget/" with ("wget" +:+ "/").
  rewrite !hasPrefixFold_slash.
  unfold hasPrefixFold. cbn [String.length].
  change (Str.lower "curl") with "curl". change (Str.lower "wget") with "wget".
  destruct (String.eqb (Str.lower (Str.take 4 ua)) "curl"),
           (String.eqb (Str.lower (Str.take 4 ua)) "wget"),
           (Str.drop 4 ua) as [|a rest];
    cbn [run andb orb]; try done; by destruct (Ascii.eqb _ _).
Qed.

(** [(?i)^homebrew] matches the strings that start with [homebrew] in
    any case. *)
Lemma MatchString_isHomebrewRe ua :
  MatchString isHomebrewRe ua = hasPrefixFold ua "homebrew".
Proof.
  unfold isHomebrewRe. rewrite MatchString_Bol. unfold attempt.
  rewrite run_Cat, run_Bol_0, run_LitsI. unfold hasPrefixFold.
  change (Str.lower "homebrew") with "homebrew".
  by destruct (String.eqb _ _).
Qed.

(** ** The error layer *)

Lemma showError_body qtype w msg code :
  http.body (showError qtype w msg code) = http.body w +:+ errorBody qtype msg.
Proof.
  unfold showError, errorBody. rewrite ReplaceAllString_errMsgRe.
  unfold http.Error, http.Write_, http.WriteHeader, http.withHeader.
  by destruct (String.eqb qtype "script"), (http.status w).
Qed.

Lemma showError_status qtype w msg code :
  http.status w = None ->
  http.status (showError qtype w msg code) =
  Some http.StatusInternalServerError.
Proof.
  intros Hw. unfold showError, http.Error, http.Write_, http.WriteHeader.
  simpl. by rewrite Hw.
Qed.

Lemma typeSwitch_known env qtype :
  typeSwitch env qtype =
  if knownType qtype
  then Some (contentTypeOf qtype,
             (if String.eqb qtype "script" then "sh"
              else if String.eqb qtype "text" then "txt" else "rb"),
             (if String.eqb qtype "script" then scripts_Shell env
              else if String.eqb qtype "text" then scripts_Text env
              else scripts_Homebrew env))
  else None.
Proof.
  unfold typeSwitch, knownType, contentTypeOf.
  destruct (String.eqb_spec qtype "script") as [->|]; [done|].
  destruct (String.eqb_spec qtype "homebrew") as [->|]; [done|].
  destruct (String.eqb_spec qtype "ruby") as [->|]; [done|].
  by destruct (String.eqb_spec qtype "text") as [->|].
Qed.

Lemma ServeHTTP_served env cfg r :
  served env cfg r (ServeHTTP env cfg http.fresh r).1
                   (ServeHTTP env cfg http.fresh r).2.
Proof.
  unfold ServeHTTP.
  destruct (String.eqb_spec (http.URL_Path r) "/healthz") as [Hh|Hh].
  { by apply served_healthz. }
  rewrite typeSwitch_known.
  destruct (knownType (responseType r)) eqn:Hk.
  2:{ by apply served_unknown_type. }
  fold (typed (responseType r)).
  destruct (valid (buildQuery cfg r)) eqn:Hv; cbn [negb andb].
  - destruct (execute env _) as [result|err]; [|by apply served_error].
    destruct (template_Parse env _) as [t|err]; [|by apply served_error].
    destruct (template_Execute env t result) as [buff|err];
      [by apply served_script|by apply served_error].
  - destruct (String.eqb_spec (http.URL_Path r) "/") as [Hr|Hr].
    + by apply served_redirect.
    + by apply served_invalid.
Qed.

Lemma typed_content_type qtype :
  http.Get (http.header (typed qtype)) "Content-Type" = contentTypeOf qtype.
Proof. unfold typed, http.Get, http.Set_. simpl. by rewrite lookup_insert_eq. Qed.

Lemma Redirect_typed qtype r url code :
  http.Redirect (typed qtype) r url code =
  http.mkResponseWriter
    (http.Set_ (http.header (typed qtype)) "Location" url) (Some code) "".
Proof.
  unfold http.Redirect, http.hasHeader, typed, http.withHeader, http.Set_.
  cbn [http.header]. by rewrite lookup_insert_eq.
Qed.

(** the handler answers 200, 301 or 500, and nothing else *)
Lemma ServeHTTP_status env cfg r :
  http.status (ServeHTTP env cfg http.fresh r).1 = Some 200 \/
  http.status (ServeHTTP env cfg http.fresh r).1 = Some 301 \/
  http.status (ServeHTTP env cfg http.fresh r).1 = Some 500.
Proof.
  destruct (ServeHTTP_served env cfg r);
    rewrite ?showError_status, ?Redirect_typed by done; auto.
Qed.

(** a request of curl for a release that is found is answered with the
    shell script, and one for a release that is not found with an echo
    line *)
Example ServeHTTP_examples :
  ServeHTTP (demo.env demo.found) demo.config http.fresh
    (demo.request "/jpillora/serve" "" "curl/8.0") =
  (http.mkResponseWriter {["Content-Type" := ["text/x-shellscript"]]}
     (Some 200) "#!/bin/sh",
   [ EvExecute (mkQuery "jpillora" "serve" "" "" false false false false);
     EvParse "#!/bin/sh";
     EvRender (mkResult
                 (mkQuery "jpillora" "serve" "" "" false false false false)
                 0 [] false);
     EvLog "serving script jpillora/serve@ (sh)" ]) /\
  http.body
    (ServeHTTP (demo.env demo.missing) demo.config http.fresh
       (demo.request "/jpillora/serve" "" "curl/8.0")).1 =
  "echo 'not found: url https://api.github.com/repos'" +:+ http.newline.
Proof. vm_compute. by split. Qed.

(** ** The GitHub client *)

(** C1, as the code has it: the request that [get] sends is the one
    [http.Get(url)] makes, a GET of the URL with no header at all.  The
    request that got the Accept header and, with a token, the
    Authorization header (lines 213-217) is not the one sent: the claim
    fails on every call that sends a request. *)
Theorem get_sends_no_header
    (parse_error : string -> option error)
    (roundTrip : client.Request -> client.Response + error)
    (V : Type) (json_Decode : string -> V + error)
    (cfg : Config.t) (url : string) :
  (client.get parse_error roundTrip json_Decode cfg url).2 =
    match parse_error url with
    | Some _ => []
    | None => [client.mkRequest "GET" url ∅]
    end /\
  Forall (fun req => http.Get (client.Header req) "Accept" = "" /\
                     http.Get (client.Header req) "Authorization" = "")
         (client.get parse_error roundTrip json_Decode cfg url).2.
Proof.
  assert ((client.get parse_error roundTrip json_Decode cfg url).2 =
          match parse_error url with
          | Some _ => []
          | None => [client.mkRequest "GET" url ∅]
          end) as Hsent.
  { unfold client.get, client.http_Get, client.NewRequest.
    destruct (parse_error url); [done|].
    destruct (roundTrip _) as [resp|err]; [|done].
    destruct (Nat.eqb _ 404); [done|].
    destruct (negb _); [done|].
    by destruct (json_Decode _). }
  split; [done|]. rewrite Hsent.
  destruct (parse_error url); by repeat constructor.
Qed.

(** ** Status codes *)

(** C2, as the code has it: [showError] answers 500 whatever code it is
    given, and no response of the handler has status 400 or 502; so an
    invalid path that is not the root ([//]) is answered 500 where the
    claim says 400, and a failed resolution is answered 500 where the
    claim says 502. *)
Theorem error_status_ignores_code :
  (forall qtype msg code,
     http.status (showError qtype http.fresh msg code) = Some 500) /\
  (forall env cfg r,
     http.status (ServeHTTP env cfg http.fresh r).1 <> Some 400 /\
     http.status (ServeHTTP env cfg http.fresh r).1 <> Some 502) /\
  http.status
    (ServeHTTP (demo.env demo.found) demo.config http.fresh
       (demo.request "//" "" "curl/8.0")).1 = Some 500 /\
  http.status
    (ServeHTTP (demo.env demo.missing) demo.config http.fresh
       (demo.request "/jpillora/serve" "" "curl/8.0")).1 = Some 500.
Proof.
  split; [|split; [|split]].
  - intros qtype msg code. by apply showError_status.
  - intros env cfg r.
    destruct (ServeHTTP_status env cfg r) as [->|[->| ->]]; by split.
  - vm_compute. reflexivity.
  - vm_compute. reflexivity.
Qed.

(** ** Sanitized error messages *)

(** C3: for every message, the body of a script error response is the
    fixed text [echo '], the characters of the message that are in
    [A-Za-z0-9 :/.], in their order, the fixed text ['] and a newline;
    every character outside the set is removed from the message before it
    is put in the echo line. *)
Theorem script_error_is_sanitized (w : http.ResponseWriter) (msg : string)
    (code : nat) :
  http.body (showError "script" w msg code) =
    http.body w +:+ "echo '" +:+ Str.filter errMsgKeep msg +:+ "'"
      +:+ http.newline /\
  Str.all errMsgKeep (Str.filter errMsgKeep msg) = true.
Proof.
  split; [|apply all_filter].
  rewrite showError_body. unfold errorBody.
  change (String.eqb "script" "script") with true. cbv iota.
  by rewrite !app_assoc_str.
Qed.

(** the example of the specification *)
Example script_error_example :
  http.body (showError "script" http.fresh "'; rm -rf / #" 502) =
  "echo ' rm rf / '" +:+ http.newline.
Proof. vm_compute. reflexivity. Qed.

(** C10: in every format the characters of the message outside
    [A-Za-z0-9 :/.] are removed before the message is written, and the
    script format alone puts the result inside [echo '...']; every error
    response of the handler (status 500) has such a body. *)
Theorem error_is_sanitized_in_every_format (env : Env) (cfg : Config.t)
    (r : http.Request) (qtype : string) (w : http.ResponseWriter)
    (msg : string) (code : nat) :
  http.body (showError qtype w msg code) =
    http.body w +:+
    (if String.eqb qtype "script"
     then "echo '" +:+ Str.filter errMsgKeep msg +:+ "'"
     else Str.filter errMsgKeep msg) +:+ http.newline /\
  (http.status (ServeHTTP env cfg http.fresh r).1 = Some 500 ->
   exists msg',
     http.body (ServeHTTP env cfg http.fresh r).1 =
     (if String.eqb (responseType r) "script"
      then "echo '" +:+ Str.filter errMsgKeep msg' +:+ "'"
      else Str.filter errMsgKeep msg') +:+ http.newline).
Proof.
  split.
  - rewrite showError_body. unfold errorBody.
    destruct (String.eqb qtype "script"); by rewrite ?app_assoc_str.
  - destruct (ServeHTTP_served env cfg r); intros Hst; try done;
      eexists; rewrite showError_body; reflexivity.
Qed.

(** C10 on the text response to a request whose release is not found *)
Lemma error_is_sanitized_in_every_format_witness :
  exists msg',
    http.body
      (ServeHTTP (demo.env demo.missing) demo.config http.fresh
         (demo.request "/jpillora/serve" "text" "curl/8.0")).1 =
    (if String.eqb
          (responseType (demo.request "/jpillora/serve" "text" "curl/8.0"))
          "script"
     then "echo '" +:+ Str.filter errMsgKeep msg' +:+ "'"
     else Str.filter errMsgKeep msg') +:+ http.newline.
Proof.
  apply (proj2 (error_is_sanitized_in_every_format
                  (demo.env demo.missing) demo.config
                  (demo.request "/jpillora/serve" "text" "curl/8.0")
                  "text" http.fresh "" 0)).
  vm_compute. reflexivity.
Defined.

(** ** The query builder *)

(** On every path [/user/program@tag] the route gives the user and the
    program, and of the tag its first character only: the release group
    is non-greedy and nothing follows it in [pathRe]. *)
Lemma routeQuery_release_first r u p c tag :
  http.URL_Path r = "/" +:+ u +:+ "/" +:+ p +:+ "@" +:+ String c tag ->
  validName userClass u = true ->
  validName repoClass p = true ->
  releaseClass c = true ->
  User (routeQuery r) = u /\ Program (routeQuery r) = p /\
  Release (routeQuery r) = String c "".
Proof.
  intros Hpath Hu Hp Hc.
  destruct (routeQuery_owner r u p ("@" +:+ String c tag) Hpath Hu Hp)
    as (HU & HP & HR); [done|].
  repeat split; try done. rewrite HR. simpl. by rewrite Hc.
Qed.

(** C4, as the code has it: on the path [/jpillora/serve@v1.2.3] the
    query has the user and the program of the path, and its release is
    [v], the first character of the tag, where the claim says the full
    tag [v1.2.3]. *)
Theorem release_is_cut_to_one_character :
  User (routeQuery (demo.request "/jpillora/serve@v1.2.3" "" "")) = "jpillora" /\
  Program (routeQuery (demo.request "/jpillora/serve@v1.2.3" "" "")) = "serve" /\
  Release (routeQuery (demo.request "/jpillora/serve@v1.2.3" "" "")) = "v" /\
  Release (buildQuery demo.config
             (demo.request "/jpillora/serve@v1.2.3" "" "")) = "v".
Proof.
  pose proof (routeQuery_release_first
                (demo.request "/jpillora/serve@v1.2.3" "" "")
                "jpillora" "serve" "v" "1.2.3" eq_refl eq_refl eq_refl eq_refl)
    as (HU & HP & HR).
  split; [exact HU|]. split; [exact HP|]. split; [exact HR|].
  vm_compute. reflexivity.
Qed.

(** ** The cache key *)

(** the constants of SHA-256, as FIPS 180-4 lists them *)
Example sha256_constants :
  sha256.init !! 0 = Some 0x6a09e667%Z /\ sha256.init !! 7 = Some 0x5be0cd19%Z /\
  sha256.K !! 0 = Some 0x428a2f98%Z /\ sha256.K !! 63 = Some 0xc67178f2%Z.
Proof. by repeat split. Qed.

(** the key of a known query, as Go computes it *)
Example cacheKey_example :
  cacheKey (mkQuery "jpillora" "serve" "" "" false false false false) =
  "2Ykl80HDYb2dPt8ZdwqQwHjIsBprSRLW7Yc8G2GMCDQ=".
Proof. vm_compute. reflexivity. Qed.

(** C5: the cache key is a function of the fields of the query: two
    queries with the same value in every field have the same key, and a
    query has the same key every time. *)
Theorem cacheKey_deterministic (q1 q2 : Query) :
  User q1 = User q2 -> Program q1 = Program q2 ->
  AsProgram q1 = AsProgram q2 -> Release q1 = Release q2 ->
  MoveToPath q1 = MoveToPath q2 -> Google q1 = Google q2 ->
  Insecure q1 = Insecure q2 -> SudoMove q1 = SudoMove q2 ->
  cacheKey q1 = cacheKey q2 /\ cacheKey q1 = cacheKey q1.
Proof.
  destruct q1, q2. simpl. by intros -> -> -> -> -> -> -> ->.
Qed.

(** C5 on the query of [/jpillora/serve] and the same query written out *)
Lemma cacheKey_deterministic_witness :
  cacheKey (buildQuery demo.config (demo.request "/jpillora/serve" "" "")) =
  cacheKey (mkQuery "jpillora" "serve" "" "" false false false false) /\
  cacheKey (buildQuery demo.config (demo.request "/jpillora/serve" "" "")) =
  cacheKey (buildQuery demo.config (demo.request "/jpillora/serve" "" "")).
Proof.
  apply (cacheKey_deterministic
           (buildQuery demo.config (demo.request "/jpillora/serve" "" ""))
           (mkQuery "jpillora" "serve" "" "" false false false false));
    vm_compute; reflexivity.
Defined.

(** ** Assets *)

(** C6: [HasM1] is true exactly when some asset of the list has OS
    [darwin] and Arch [arm64]; it is false on the empty list. *)
Theorem HasM1_iff (as_ : Assets) :
  (HasM1 as_ = true <->
   exists a, a ∈ as_ /\ OS a = "darwin" /\ Arch a = "arm64") /\
  HasM1 [] = false.
Proof.
  split; [|done].
  induction as_ as [|a rest IH]; simpl.
  - split; [done|]. intros (a & Ha & _). by apply elem_of_nil in Ha.
  - unfold IsMacM1 at 1, IsMac.
    destruct (String.eqb_spec (OS a) "darwin") as [Hos|Hos];
      destruct (String.eqb_spec (Arch a) "arm64") as [Harch|Harch]; simpl.
    + split; [|done]. intros _. exists a. split; [left|done].
    + rewrite IH. split.
      * intros (b & Hb & ?). exists b. split; [by right|done].
      * intros (b & [->|Hb]%elem_of_cons & Hos' & Harch'); [done|].
        by exists b.
    + rewrite IH. split.
      * intros (b & Hb & ?). exists b. split; [by right|done].
      * intros (b & [->|Hb]%elem_of_cons & Hos' & Harch'); [done|].
        by exists b.
    + rewrite IH. split.
      * intros (b & Hb & ?). exists b. split; [by right|done].
      * intros (b & [->|Hb]%elem_of_cons & Hos' & Harch'); [done|].
        by exists b.
Qed.

(** ** The root path *)

(** C7, the claim as stated fails: a request for [/] with an unknown
    [type] has an invalid query and the root path, and is answered 500
    with the text [Unknown type], not 301: the type is checked (lines
    96-112) before the query is built. *)
Lemma root_with_unknown_type_is_not_redirected :
  let r := demo.request "/" "xml" "curl/8.0" in
  http.URL_Path r = "/" /\
  valid (buildQuery demo.config r) = false /\
  http.status (ServeHTTP (demo.env demo.found) demo.config http.fresh r).1
    = Some 500 /\
  http.status (ServeHTTP (demo.env demo.found) demo.config http.fresh r).1
    <> Some 301.
Proof. vm_compute. by repeat split. Qed.

(** C7, amended: a request for [/] whose type is one of script, homebrew,
    ruby and text, and whose query is invalid after defaulting and
    forcing, is answered 301 with the project's home page as Location,
    and nothing else is done: no resolution, no template, no body. *)
Theorem root_is_redirected (env : Env) (cfg : Config.t) (r : http.Request) :
  http.URL_Path r = "/" ->
  valid (buildQuery cfg r) = false ->
  knownType (responseType r) = true ->
  let w := (ServeHTTP env cfg http.fresh r).1 in
  http.status w = Some 301 /\
  http.status w <> Some 400 /\
  http.Get (http.header w) "Location" = "https://github.com/jpillora/installer" /\
  http.body w = "" /\
  (ServeHTTP env cfg http.fresh r).2 = [].
Proof.
  intros Hroot Hvalid Hknown. unfold ServeHTTP.
  rewrite Hroot, typeSwitch_known, Hknown, Hvalid. simpl.
  by repeat split.
Qed.

(** C7 on the request of curl for [/] *)
Lemma root_is_redirected_witness :
  let r := demo.request "/" "" "curl/8.0" in
  let w := (ServeHTTP (demo.env demo.found) demo.config http.fresh r).1 in
  http.status w = Some 301 /\
  http.status w <> Some 400 /\
  http.Get (http.header w) "Location" = "https://github.com/jpillora/installer" /\
  http.body w = "" /\
  (ServeHTTP (demo.env demo.found) demo.config http.fresh r).2 = [].
Proof.
  apply (root_is_redirected (demo.env demo.found) demo.config
           (demo.request "/" "" "curl/8.0")); vm_compute; reflexivity.
Defined.

(** ** The default user *)

(** C8: when the route gives no owner, the default-user step (lines
    129-139) sets User to [zyedidia] and leaves Google false if the
    program of the route is [micro], and else sets User to the configured
    default user and Google to true.  The query that is resolved has the
    same Google flag, and the same User unless a forced user is
    configured (lines 141-143). *)
Theorem default_user_policy (cfg : Config.t) (r : http.Request) :
  User (routeQuery r) = "" ->
  (Program (routeQuery r) = "micro" ->
   User (defaultUser cfg (routeQuery r)) = "zyedidia" /\
   Google (defaultUser cfg (routeQuery r)) = false) /\
  (Program (routeQuery r) <> "micro" ->
   User (defaultUser cfg (routeQuery r)) = Config.User cfg /\
   Google (defaultUser cfg (routeQuery r)) = true) /\
  Google (buildQuery cfg r) = Google (defaultUser cfg (routeQuery r)) /\
  (Config.ForceUser cfg = "" ->
   User (buildQuery cfg r) = User (defaultUser cfg (routeQuery r))).
Proof.
  intros Huser.
  assert (Google (routeQuery r) = false) as Hg.
  { unfold routeQuery. by destruct (_ <? _). }
  split; [|split; [|split]].
  - intros Hprog. unfold defaultUser. by rewrite Huser, Hprog.
  - intros Hprog. unfold defaultUser. rewrite Huser.
    by destruct (String.eqb_spec (Program (routeQuery r)) "micro").
  - done.
  - intros Hforce. unfold buildQuery, forceUserRepo. by rewrite Hforce.
Qed.

(** C8 on the request for [/micro] *)
Lemma default_user_policy_witness :
  (Program (routeQuery (demo.request "/micro" "" "")) = "micro" ->
   User (defaultUser demo.config (routeQuery (demo.request "/micro" "" "")))
     = "zyedidia" /\
   Google (defaultUser demo.config (routeQuery (demo.request "/micro" "" "")))
     = false) /\
  (Program (routeQuery (demo.request "/micro" "" "")) <> "micro" ->
   User (defaultUser demo.config (routeQuery (demo.request "/micro" "" "")))
     = Config.User demo.config /\
   Google (defaultUser demo.config (routeQuery (demo.request "/micro" "" "")))
     = true) /\
  Google (buildQuery demo.config (demo.request "/micro" "" "")) =
    Google (defaultUser demo.config (routeQuery (demo.request "/micro" "" "")))
  /\
  (Config.ForceUser demo.config = "" ->
   User (buildQuery demo.config (demo.request "/micro" "" "")) =
   User (defaultUser demo.config (routeQuery (demo.request "/micro" "" "")))).
Proof.
  apply (default_user_policy demo.config (demo.request "/micro" "" "")).
  vm_compute. reflexivity.
Defined.

(** a path [/program] carries no owner, whatever the program *)
Lemma no_owner_route r p :
  http.URL_Path r = "/" +:+ p ->
  validName repoClass p = true ->
  User (routeQuery r) = "" /\ Program (routeQuery r) = p.
Proof.
  intros Hpath Hp.
  destruct (routeQuery_no_owner r p "") as (HU & HP & _); try done.
  by rewrite app_empty_r.
Qed.

(** ** The response format *)

Lemma responseType_spec r :
  responseType r =
  if String.eqb (http.Get (http.URL_Query r) "type") "" then
    if hasPrefixFold (http.Get (http.ReqHeader r) "User-Agent") "curl/"
       || hasPrefixFold (http.Get (http.ReqHeader r) "User-Agent") "wget/"
    then "script"
    else if hasPrefixFold (http.Get (http.ReqHeader r) "User-Agent") "homebrew"
    then "ruby"
    else "text"
  else http.Get (http.URL_Query r) "type".
Proof.
  unfold responseType.
  by rewrite MatchString_isTermRe, MatchString_isHomebrewRe.
Qed.

(** C9, the claim as stated fails: the User-Agent [curl] starts with
    [curl] and no type is given, and the format is text, not script:
    [isTermRe] wants a [/] after the name. *)
Lemma curl_without_slash_is_text :
  let r := demo.request "/jpillora/serve" "" "curl" in
  http.Get (http.URL_Query r) "type" = "" /\
  hasPrefixFold (http.Get (http.ReqHeader r) "User-Agent") "curl" = true /\
  responseType r = "text" /\
  responseType r <> "script".
Proof. vm_compute. by repeat split. Qed.

(** C9, amended: a type parameter that is not empty is the format;
    without one, a User-Agent that starts with [curl/] or [wget/] in any
    case selects script, else one that starts with [homebrew] in any case
    selects ruby, else the format is text.  The handler sets the
    Content-Type to text/x-shellscript for script, text/ruby for homebrew
    and ruby, text/plain for text, and a response that is not an error
    response carries it. *)
Theorem response_format (env : Env) (cfg : Config.t) (r : http.Request) :
  responseType r =
    (if String.eqb (http.Get (http.URL_Query r) "type") "" then
       if hasPrefixFold (http.Get (http.ReqHeader r) "User-Agent") "curl/"
          || hasPrefixFold (http.Get (http.ReqHeader r) "User-Agent") "wget/"
       then "script"
       else if hasPrefixFold (http.Get (http.ReqHeader r) "User-Agent")
                 "homebrew"
       then "ruby"
       else "text"
     else http.Get (http.URL_Query r) "type") /\
  (http.URL_Path r <> "/healthz" ->
   http.status (ServeHTTP env cfg http.fresh r).1 <> Some 500 ->
   http.Get (http.header (ServeHTTP env cfg http.fresh r).1) "Content-Type" =
     (if String.eqb (responseType r) "script" then "text/x-shellscript"
      else if String.eqb (responseType r) "homebrew"
              || String.eqb (responseType r) "ruby" then "text/ruby"
      else "text/plain")).
Proof.
  split; [apply responseType_spec|].
  assert (forall q, knownType q = true ->
            contentTypeOf q =
            (if String.eqb q "script" then "text/x-shellscript"
             else if String.eqb q "homebrew" || String.eqb q "ruby"
             then "text/ruby" else "text/plain")) as Hct.
  { intros q. unfold knownType, contentTypeOf.
    destruct (String.eqb q "script"), (String.eqb q "homebrew"),
      (String.eqb q "ruby"), (String.eqb q "text"); done. }
  destruct (ServeHTTP_served env cfg r) as [| | | | |buff events];
    intros Hpath Hst; try done;
    try (by rewrite showError_status in Hst);
    rewrite <-Hct by done.
  - rewrite Redirect_typed. cbn [http.header].
    unfold typed, http.withHeader, http.Get, http.Set_. cbn [http.header].
    rewrite lookup_insert_ne by done. by rewrite lookup_insert_eq.
  - apply typed_content_type.
Qed.

(** C9 on the request of wget for [/jpillora/serve] *)
Lemma response_format_witness :
  http.Get
    (http.header
       (ServeHTTP (demo.env demo.found) demo.config http.fresh
          (demo.request "/jpillora/serve" "" "Wget/1.21")).1) "Content-Type" =
  "text/x-shellscript".
Proof.
  apply (proj2 (response_format (demo.env demo.found) demo.config
                  (demo.request "/jpillora/serve" "" "Wget/1.21")));
    vm_compute; discriminate.
Defined.

(** * Further properties *)

(** ** What a matching path looks like *)

Lemma take_drop_str n s : Str.take n s +:+ Str.drop n s = s.
Proof.
  revert s. induction n as [|n IH]; intros [|c s]; try done.
  simpl. rewrite app_String. by rewrite IH.
Qed.

(** A repetition of a class that succeeds has taken some characters of
    the class, within its bounds, and the rest of the expression has
    matched after them. *)
Lemma iterate_Some_inv {T} p lo greedy (k : cont T) :
  forall fuel done pos s caps x,
  iterate (run (Class p)) lo greedy k fuel done pos s caps = Some x ->
  exists n,
    n <= fuel /\ lo <= done + n /\
    Str.all p (Str.take n s) = true /\ String.length (Str.take n s) = n /\
    k (pos + n) (Str.drop n s) caps = Some x.
Proof.
  induction fuel as [|fuel IH]; intros done pos s caps x H.
  - simpl in H. destruct (lo <=? done) eqn:Hlo; [|done].
    apply Nat.leb_le in Hlo. exists 0. rewrite !Nat.add_0_r.
    split; [lia|]. split; [lia|]. by destruct s.
  - rewrite iterate_S in H.
    assert (forall y,
      run (Class p) pos s caps (iterate (run (Class p)) lo greedy k fuel (S done))
        = Some y ->
      exists n, n <= S fuel /\ lo <= done + n /\
        Str.all p (Str.take n s) = true /\ String.length (Str.take n s) = n /\
        k (pos + n) (Str.drop n s) caps = Some y) as Hmore.
    { intros y Hy. destruct s as [|c s]; [done|].
      rewrite run_Class_String in Hy. destruct (p c) eqn:Hc; [|done].
      apply IH in Hy as (n & Hn & Hlo & Hall & Hlen & Hk).
      exists (S n). simpl. rewrite Hc, Hall, Hlen.
      replace (pos + S n) with (S pos + n) by lia.
      split; [lia|]. split; [lia|]. done. }
    assert (forall y,
      (if lo <=? done then k pos s caps else None) = Some y ->
      exists n, n <= S fuel /\ lo <= done + n /\
        Str.all p (Str.take n s) = true /\ String.length (Str.take n s) = n /\
        k (pos + n) (Str.drop n s) caps = Some y) as Hstop.
    { intros y Hy. destruct (lo <=? done) eqn:Hlo; [|done].
      apply Nat.leb_le in Hlo. exists 0. rewrite !Nat.add_0_r.
      split; [lia|]. split; [lia|]. by destruct s. }
    destruct greedy.
    + destruct (run (Class p) pos s caps _) as [y|] eqn:Hy.
      * injection H as ->. by apply Hmore.
      * by apply Hstop.
    + destruct (if lo <=? done then k pos s caps else None) as [y|] eqn:Hy.
      * injection H as ->. by apply Hstop.
      * by apply Hmore.
Qed.

Lemma run_repo_release_inv pos s caps0 path e caps :
  run (Cat (Lit "/") (Cat repoRe releaseRe)) pos s caps0 (finish 0 path)
    = Some (e, caps) ->
  exists p rest,
    s = "/" +:+ p +:+ rest /\ validName repoClass p = true /\
    caps = routeCaptures (Str.take (e - 0) path) p rest caps0.
Proof.
  intros H. rewrite run_Cat in H. destruct s as [|a s]; [done|].
  rewrite run_Lit_String in H.
  destruct (Ascii.eqb_spec a "/") as [->|]; [|done].
  rewrite run_Cat in H. unfold repoRe in H. rewrite run_Cap, run_Rep in H.
  apply iterate_Some_inv in H as (m & Hm & Hlo & Hall & Hlen & Hk).
  replace (S pos + m - S pos) with m in Hk by lia.
  rewrite (run_releaseRe _ _ _ _ (finish_is_Some 0 path)) in Hk.
  exists (Str.take m s), (Str.drop m s). split; [|split].
  - by rewrite app_lit, take_drop_str.
  - unfold validName. rewrite Hlen, Hall.
    apply Nat.leb_le in Hm. rewrite Hm.
    assert ((1 <=? m) = true) as -> by (apply Nat.leb_le; lia). done.
  - unfold routeCaptures.
    destruct (decide (releaseOf (Str.drop m s) = "")); unfold finish in Hk;
      by injection Hk as <- <-.
Qed.

(** Every match of [pathRe]: an optional [/user], then [/program], both
    names of 1 to 128 characters of their class, then anything; the
    release is what [releaseRe] takes of the text after the program. *)
Lemma attempt_pathRe_inv path e caps :
  attempt pathRe 0 path = Some (e, caps) ->
  exists u p rest,
    path = (if decide (u = "") then "" else "/" +:+ u) +:+ "/" +:+ p +:+ rest /\
    (u = "" \/ validName userClass u = true) /\
    validName repoClass p = true /\
    default "" (caps !! 2) = u /\ default "" (caps !! 3) = p /\
    default "" (caps !! 5) = releaseOf rest.
Proof.
  unfold attempt, pathRe.
  change (fun e _ caps => Some (e, <[0 := Str.take (e - 0) path]> caps))
    with (finish 0 path).
  rewrite run_Cat, run_Bol_0, run_Cat. unfold userRe. rewrite run_Opt.
  destruct (run (Cap 1 _) 0 path ∅ _) as [y|] eqn:Hy.
  - intros [= ->]. rewrite run_Cap, run_Cat in Hy.
    destruct path as [|a s1] eqn:Hpath; [done|]. rewrite <-Hpath in Hy.
    rewrite Hpath in Hy at 1. rewrite run_Lit_String in Hy.
    destruct (Ascii.eqb_spec a "/") as [->|]; [|done].
    rewrite run_Cap, run_Rep in Hy.
    apply iterate_Some_inv in Hy as (n & Hn & Hlo & Hall & Hlen & Hk).
    apply run_repo_release_inv in Hk as (p & rest & Hs & Hp & ->).
    assert (validName userClass (Str.take n s1) = true) as Hu.
    { unfold validName. rewrite Hlen, Hall. apply Nat.leb_le in Hn.
      rewrite Hn. assert ((1 <=? n) = true) as -> by (apply Nat.leb_le; lia).
      done. }
    assert (Str.take n s1 <> "") as Hne.
    { intros Hnil. rewrite Hnil in Hlen. simpl in Hlen. lia. }
    exists (Str.take n s1), p, rest. rewrite decide_False by done.
    split; [|split; [by right|split; [done|]]].
    + rewrite app_lit, app_String, <-Hs. by rewrite take_drop_str.
    + replace (1 + n - 1) with n by lia. unfold routeCaptures.
      destruct (decide (releaseOf rest = "")) as [Hr|Hr]; map_lookups;
        by rewrite ?Hr.
  - intros Hk.
    apply run_repo_release_inv in Hk as (p & rest & Hs & Hp & ->).
    exists "", p, rest. rewrite decide_True by done.
    split; [done|split; [by left|split; [done|]]].
    unfold routeCaptures.
    destruct (decide (releaseOf rest = "")) as [Hr|Hr]; map_lookups;
      by rewrite ?Hr.
Qed.

(** X1.  Whatever the path, the names that the route gives are well
    formed: either the path does not match and User, Program and Release
    are empty, or the path is an optional [/user], then [/program], then
    any text, where Program is 1 to 128 characters of [[\w\-\_]], User is
    empty or 1 to 128 characters of [[\w\-]], and Release is what
    [releaseRe] takes of the text after the program. *)
Theorem route_names_are_well_formed (r : http.Request) :
  (User (routeQuery r) = "" /\ Program (routeQuery r) = "" /\
   Release (routeQuery r) = "") \/
  (validName repoClass (Program (routeQuery r)) = true /\
   (User (routeQuery r) = "" \/
    validName userClass (User (routeQuery r)) = true) /\
   exists rest,
     http.URL_Path r =
       (if decide (User (routeQuery r) = "") then ""
        else "/" +:+ User (routeQuery r))
       +:+ "/" +:+ Program (routeQuery r) +:+ rest /\
     Release (routeQuery r) = releaseOf rest).
Proof.
  destruct (attempt pathRe 0 (http.URL_Path r)) as [[e caps]|] eqn:Ha.
  - right. destruct (routeQuery_groups r e caps Ha) as (-> & -> & ->).
    apply attempt_pathRe_inv in Ha
      as (u & p & rest & Hpath & Hu & Hp & -> & -> & ->).
    split; [done|]. split; [done|]. by exists rest.
  - left. unfold routeQuery, FindStringSubmatch, pathRe in *.
    by rewrite search_Bol_0, Ha.
Qed.

(** ** The query of a path *)

Lemma validName_nonempty cls s :
  validName cls s = true -> String.eqb s "" = false.
Proof.
  intros (H1 & _ & _)%validName_spec. destruct s; [simpl in H1; lia|done].
Qed.

(** X2.  Without forced user and repo, a path [/user/program] followed
    by any text that does not go on with the program name is resolved
    as user/program: the text after the program is not looked at (but for
    the release that [releaseRe] takes of it), and the query is valid,
    with no upstream fallback search. *)
Theorem owner_path_is_resolved (cfg : Config.t) (r : http.Request)
    (u p rest : string) :
  http.URL_Path r = "/" +:+ u +:+ "/" +:+ p +:+ rest ->
  validName userClass u = true ->
  validName repoClass p = true ->
  stops repoClass rest ->
  Config.ForceUser cfg = "" ->
  Config.ForceRepo cfg = "" ->
  User (buildQuery cfg r) = u /\ Program (buildQuery cfg r) = p /\
  Release (buildQuery cfg r) = releaseOf rest /\
  Google (buildQuery cfg r) = false /\
  valid (buildQuery cfg r) = true.
Proof.
  intros Hpath Hu Hp Hstop HfU HfR.
  destruct (routeQuery_owner r u p rest Hpath Hu Hp Hstop) as (HU & HP & HR).
  assert (Google (routeQuery r) = false) as Hg.
  { unfold routeQuery. by destruct (_ <? _). }
  pose proof (validName_nonempty _ _ Hu) as Hune.
  pose proof (validName_nonempty _ _ Hp) as Hpne.
  unfold valid, buildQuery, forceUserRepo, defaultUser.
  rewrite HfU, HfR, HU, Hune. simpl. by rewrite HU, HP, HR, Hg, Hune, Hpne.
Qed.

(** a path with more segments after the program *)
Lemma owner_path_is_resolved_witness :
  User (buildQuery demo.config
          (demo.request "/jpillora/serve/releases/latest" "" "")) = "jpillora" /\
  Program (buildQuery demo.config
             (demo.request "/jpillora/serve/releases/latest" "" "")) = "serve" /\
  Release (buildQuery demo.config
             (demo.request "/jpillora/serve/releases/latest" "" ""))
    = releaseOf "/releases/latest" /\
  Google (buildQuery demo.config
            (demo.request "/jpillora/serve/releases/latest" "" "")) = false /\
  valid (buildQuery demo.config
           (demo.request "/jpillora/serve/releases/latest" "" "")) = true.
Proof.
  apply (owner_path_is_resolved demo.config
           (demo.request "/jpillora/serve/releases/latest" "" "")
           "jpillora" "serve" "/releases/latest"); vm_compute; done.
Defined.

(** X3.  Without forced user and repo, a path [/program] that goes on
    with neither the program name nor [/] has no owner: the program is
    the one of the path, the user is [zyedidia] for [micro] and the
    configured default user for every other program, which alone turns
    on the upstream fallback search; the query is valid unless the
    default user that is needed is empty. *)
Theorem program_path_gets_default_user (cfg : Config.t) (r : http.Request)
    (p rest : string) :
  http.URL_Path r = "/" +:+ p +:+ rest ->
  validName repoClass p = true ->
  stops repoClass rest ->
  noSlash rest ->
  Config.ForceUser cfg = "" ->
  Config.ForceRepo cfg = "" ->
  Program (buildQuery cfg r) = p /\
  User (buildQuery cfg r) =
    (if String.eqb p "micro" then "zyedidia" else Config.User cfg) /\
  Google (buildQuery cfg r) = negb (String.eqb p "micro") /\
  valid (buildQuery cfg r) =
    (String.eqb p "micro" || negb (String.eqb (Config.User cfg) "")).
Proof.
  intros Hpath Hp Hstop Hrest HfU HfR.
  destruct (routeQuery_no_owner r p rest Hpath Hp Hstop Hrest)
    as (HU & HP & HR).
  assert (Google (routeQuery r) = false) as Hg.
  { unfold routeQuery. by destruct (_ <? _). }
  pose proof (validName_nonempty _ _ Hp) as Hpne.
  unfold valid, buildQuery, forceUserRepo, defaultUser.
  rewrite HfU, HfR, HU, HP. simpl.
  destruct (String.eqb p "micro"); simpl; rewrite ?HP, ?Hg, Hpne; try done.
  by rewrite andb_true_r.
Qed.

(** the path of a program with the move mark *)
Lemma program_path_gets_default_user_witness :
  Program (buildQuery demo.config (demo.request "/serve!" "" "")) = "serve" /\
  User (buildQuery demo.config (demo.request "/serve!" "" "")) =
    (if String.eqb "serve" "micro" then "zyedidia"
     else Config.User demo.config) /\
  Google (buildQuery demo.config (demo.request "/serve!" "" "")) =
    negb (String.eqb "serve" "micro") /\
  valid (buildQuery demo.config (demo.request "/serve!" "" "")) =
    (String.eqb "serve" "micro"
     || negb (String.eqb (Config.User demo.config) "")).
Proof.
  apply (program_path_gets_default_user demo.config
           (demo.request "/serve!" "" "") "serve" "!"); vm_compute; done.
Defined.

(** [strings.HasSuffix] *)
Lemma HasSuffix_spec s suffix :
  Str.HasSuffix s suffix = true <-> exists pre, s = pre +:+ suffix.
Proof.
  induction s as [|c s IH].
  - cbn [Str.HasSuffix]. rewrite orb_false_r, String.eqb_eq. split.
    + intros <-. by exists "".
    + intros ([|a pre] & H); [|done]. done.
  - cbn [Str.HasSuffix]. rewrite orb_true_iff, IH, String.eqb_eq. split.
    + intros [<-|(pre & ->)]; [by exists ""|]. by exists (String c pre).
    + intros ([|a pre] & H).
      * left. done.
      * right. rewrite app_String in H. injection H as -> ->. by exists pre.
Qed.

(** X4.  MoveToPath is decided by the last character of the raw path
    alone: the query that is resolved has it exactly when the path ends
    with [!], whether or not the path matches [pathRe] and whatever the
    configuration. *)
Theorem MoveToPath_iff_path_ends_with_bang (cfg : Config.t)
    (r : http.Request) :
  MoveToPath (buildQuery cfg r) = true <->
  exists pre, http.URL_Path r = pre +:+ "!".
Proof.
  rewrite <-HasSuffix_spec.
  unfold buildQuery, forceUserRepo, defaultUser, routeQuery. cbn [MoveToPath].
  destruct (_ <? _); cbn [User Program MoveToPath];
    repeat (case_match; cbn [MoveToPath]); done.
Qed.

(** X5.  With a forced user and a forced repo, every request other than
    the health check and with a known type is resolved as the forced
    user and repo, whatever its path: it is never redirected to the home
    page nor refused as an invalid path, and [h.execute] is called on
    the forced names. *)
Theorem forced_repo_serves_every_path (env : Env) (cfg : Config.t)
    (r : http.Request) :
  Config.ForceUser cfg <> "" ->
  Config.ForceRepo cfg <> "" ->
  http.URL_Path r <> "/healthz" ->
  knownType (responseType r) = true ->
  User (buildQuery cfg r) = Config.ForceUser cfg /\
  Program (buildQuery cfg r) = Config.ForceRepo cfg /\
  http.status (ServeHTTP env cfg http.fresh r).1 <> Some 301 /\
  exists events,
    (ServeHTTP env cfg http.fresh r).2 = EvExecute (buildQuery cfg r) :: events.
Proof.
  intros HfU HfR Hpath Hknown.
  apply String.eqb_neq in HfU, HfR, Hpath.
  assert (User (buildQuery cfg r) = Config.ForceUser cfg) as HU.
  { unfold buildQuery, forceUserRepo. by rewrite HfU. }
  assert (Program (buildQuery cfg r) = Config.ForceRepo cfg) as HP.
  { unfold buildQuery, forceUserRepo. by rewrite HfR. }
  assert (valid (buildQuery cfg r) = true) as Hvalid.
  { unfold valid. by rewrite HU, HP, HfU, HfR. }
  split; [done|]. split; [done|].
  unfold ServeHTTP. rewrite Hpath, typeSwitch_known, Hknown, Hvalid.
  cbn [negb andb].
  destruct (execute env _) as [result|err];
    [destruct (template_Parse env _) as [t|err];
       [destruct (template_Execute env t result) as [buff|err]|]|];
    (split; [|by eexists]);
    rewrite ?showError_status by done; done.
Qed.

(** the root path, with a forced user and repo *)
Lemma forced_repo_serves_every_path_witness :
  User (buildQuery (Config.mk "" "jpillora" "installer" "")
          (demo.request "/" "" "curl/8.0")) = "jpillora" /\
  Program (buildQuery (Config.mk "" "jpillora" "installer" "")
             (demo.request "/" "" "curl/8.0")) = "installer" /\
  http.status
    (ServeHTTP (demo.env demo.found) (Config.mk "" "jpillora" "installer" "")
       http.fresh (demo.request "/" "" "curl/8.0")).1 <> Some 301 /\
  exists events,
    (ServeHTTP (demo.env demo.found) (Config.mk "" "jpillora" "installer" "")
       http.fresh (demo.request "/" "" "curl/8.0")).2 =
    EvExecute (buildQuery (Config.mk "" "jpillora" "installer" "")
                 (demo.request "/" "" "curl/8.0")) :: events.
Proof.
  apply (forced_repo_serves_every_path (demo.env demo.found)
           (Config.mk "" "jpillora" "installer" "")
           (demo.request "/" "" "curl/8.0")); vm_compute; done.
Defined.

(** ** What the handler does with a request *)

(** X6.  [h.execute] is called on the query of the request, once, when
    the request is not the health check, its type is known and its query
    is valid; on every other request it is not called at all: a health
    check, an unknown type, the root and an invalid path cost no
    resolution. *)
Theorem execute_is_called_once_on_valid_queries (env : Env) (cfg : Config.t)
    (r : http.Request) :
  executed (ServeHTTP env cfg http.fresh r).2 =
  if negb (String.eqb (http.URL_Path r) "/healthz")
     && knownType (responseType r) && valid (buildQuery cfg r)
  then [buildQuery cfg r] else [].
Proof.
  unfold ServeHTTP.
  destruct (String.eqb (http.URL_Path r) "/healthz"); [done|].
  rewrite typeSwitch_known.
  destruct (knownType (responseType r)); [|done].
  destruct (valid (buildQuery cfg r)); cbn [negb andb].
  - destruct (execute env _) as [result|err]; [|done].
    destruct (template_Parse env _) as [t|err]; [|done].
    by destruct (template_Execute env t result).
  - by destruct (String.eqb (http.URL_Path r) "/").
Qed.

Lemma showError_header qtype w msg code key :
  http.Get (http.header (showError qtype w msg code)) key =
  if String.eqb key "X-Content-Type-Options" then "nosniff"
  else if String.eqb key "Content-Type" then "text/plain; charset=utf-8"
  else if String.eqb key "Content-Length" then ""
  else http.Get (http.header w) key.
Proof.
  unfold showError, http.Error, http.Write_, http.WriteHeader, http.withHeader,
    http.Get, http.Set_, http.Del.
  cbn [http.status http.header].
  assert (forall w' : http.ResponseWriter,
            http.header match http.status w with
                        | Some _ => w'
                        | None => http.mkResponseWriter (http.header w')
                                    (Some 500) (http.body w')
                        end = http.header w') as Hh.
  { intros w'. by destruct (http.status w). }
  destruct (http.status w); cbn [http.status http.header];
    (destruct (String.eqb_spec key "X-Content-Type-Options") as [->|H1];
     [by rewrite lookup_insert_eq|rewrite lookup_insert_ne by done];
     destruct (String.eqb_spec key "Content-Type") as [->|H2];
     [by rewrite lookup_insert_eq|rewrite lookup_insert_ne by done];
     destruct (String.eqb_spec key "Content-Length") as [->|H3];
     [by rewrite lookup_delete_eq|by rewrite lookup_delete_ne by done]).
Qed.

(** X7.  Every error response of the handler (status 500) is plain text
    that is not to be sniffed, whatever the type of the request: the
    Content-Type of the script that was asked for is replaced, and the
    body ends with a newline. *)
Theorem error_response_is_plain_text (env : Env) (cfg : Config.t)
    (r : http.Request) :
  http.status (ServeHTTP env cfg http.fresh r).1 = Some 500 ->
  http.Get (http.header (ServeHTTP env cfg http.fresh r).1) "Content-Type"
    = "text/plain; charset=utf-8" /\
  http.Get (http.header (ServeHTTP env cfg http.fresh r).1)
    "X-Content-Type-Options" = "nosniff" /\
  exists line,
    http.body (ServeHTTP env cfg http.fresh r).1 = line +:+ http.newline.
Proof.
  destruct (ServeHTTP_served env cfg r); intros Hst; try done;
    try (by rewrite Redirect_typed in Hst);
    rewrite !showError_header, showError_body; cbn [String.eqb Ascii.eqb];
    (split; [done|split; [done|]]); unfold errorBody;
    eexists; cbn [typed http.fresh http.withHeader http.body];
    change ("" +:+ ?x) with x; reflexivity.
Qed.

Lemma error_response_is_plain_text_witness :
  http.Get
    (http.header
       (ServeHTTP (demo.env demo.missing) demo.config http.fresh
          (demo.request "/jpillora/serve" "" "curl/8.0")).1) "Content-Type"
    = "text/plain; charset=utf-8" /\
  http.Get
    (http.header
       (ServeHTTP (demo.env demo.missing) demo.config http.fresh
          (demo.request "/jpillora/serve" "" "curl/8.0")).1)
    "X-Content-Type-Options" = "nosniff" /\
  exists line,
    http.body
      (ServeHTTP (demo.env demo.missing) demo.config http.fresh
         (demo.request "/jpillora/serve" "" "curl/8.0")).1
    = line +:+ http.newline.
Proof.
  apply (error_response_is_plain_text (demo.env demo.missing) demo.config
           (demo.request "/jpillora/serve" "" "curl/8.0")).
  vm_compute. reflexivity.
Defined.

(** X8.  A response 200 to a request other than the health check is a
    rendered script and nothing else: the resolution, the parsing of the
    template of the type and its rendering have all succeeded, the body is
    exactly what the template rendered, under the Content-Type of the
    type, and one line was logged; so no partial script is ever served. *)
Theorem ok_response_is_the_rendered_script (env : Env) (cfg : Config.t)
    (r : http.Request) :
  http.URL_Path r <> "/healthz" ->
  http.status (ServeHTTP env cfg http.fresh r).1 = Some 200 ->
  exists contentType ext script result t,
    typeSwitch env (responseType r) = Some (contentType, ext, script) /\
    valid (buildQuery cfg r) = true /\
    execute env (buildQuery cfg r) = inl result /\
    template_Parse env script = inl t /\
    template_Execute env t result =
      inl (http.body (ServeHTTP env cfg http.fresh r).1) /\
    http.header (ServeHTTP env cfg http.fresh r).1 =
      {["Content-Type" := [contentType]]} /\
    logged (ServeHTTP env cfg http.fresh r).2 =
      [servingLine (buildQuery cfg r) ext].
Proof.
  intros Hpath%String.eqb_neq. unfold ServeHTTP. rewrite Hpath.
  destruct (typeSwitch env (responseType r)) as [[[contentType ext] script]|];
    cbn [fst snd]; [|by rewrite showError_status].
  destruct (valid (buildQuery cfg r)) eqn:Hv; cbn [negb andb].
  - destruct (execute env _) as [result|err] eqn:He; cbn [fst snd];
      [|by rewrite showError_status].
    destruct (template_Parse env _) as [t|err] eqn:Hp; cbn [fst snd];
      [|by rewrite showError_status].
    destruct (template_Execute env t result) as [buff|err] eqn:Hx;
      cbn [fst snd]; [|by rewrite showError_status].
    intros _. by exists contentType, ext, script, result, t.
  - destruct (String.eqb (http.URL_Path r) "/"); cbn [fst snd]; [done|].
    by rewrite showError_status.
Qed.

Lemma ok_response_is_the_rendered_script_witness :
  exists contentType ext script result t,
    typeSwitch (demo.env demo.found)
      (responseType (demo.request "/jpillora/serve" "" "Homebrew/4"))
      = Some (contentType, ext, script) /\
    valid (buildQuery demo.config
             (demo.request "/jpillora/serve" "" "Homebrew/4")) = true /\
    execute (demo.env demo.found)
      (buildQuery demo.config (demo.request "/jpillora/serve" "" "Homebrew/4"))
      = inl result /\
    template_Parse (demo.env demo.found) script = inl t /\
    template_Execute (demo.env demo.found) t result =
      inl (http.body
             (ServeHTTP (demo.env demo.found) demo.config http.fresh
                (demo.request "/jpillora/serve" "" "Homebrew/4")).1) /\
    http.header
      (ServeHTTP (demo.env demo.found) demo.config http.fresh
         (demo.request "/jpillora/serve" "" "Homebrew/4")).1 =
      {["Content-Type" := [contentType]]} /\
    logged
      (ServeHTTP (demo.env demo.found) demo.config http.fresh
         (demo.request "/jpillora/serve" "" "Homebrew/4")).2 =
      [servingLine
         (buildQuery demo.config
            (demo.request "/jpillora/serve" "" "Homebrew/4")) ext].
Proof.
  apply (ok_response_is_the_rendered_script (demo.env demo.found) demo.config
           (demo.request "/jpillora/serve" "" "Homebrew/4"));
    vm_compute; done.
Defined.

(** X9.  The handler redirects on one condition only: the path is [/],
    the type is known and the query is invalid; and it answers no status
    other than 200, 301 and 500. *)
Theorem redirect_only_from_the_root (env : Env) (cfg : Config.t)
    (r : http.Request) :
  (http.status (ServeHTTP env cfg http.fresh r).1 = Some 301 <->
   http.URL_Path r = "/" /\ knownType (responseType r) = true /\
   valid (buildQuery cfg r) = false) /\
  (exists code, http.status (ServeHTTP env cfg http.fresh r).1 = Some code /\
                (code = 200 \/ code = 301 \/ code = 500)).
Proof.
  destruct (ServeHTTP_served env cfg r) as [Hh|Hh Hk|Hr Hk Hv|Hh Hr Hk Hv
                                            |msg code events Hh Hk Hv He
                                            |buff events Hh Hk Hv];
    rewrite ?showError_status, ?Redirect_typed by done;
    cbn [http.status http.Write_ http.WriteHeader typed http.withHeader
         http.fresh];
    (split; [|eexists; split; [reflexivity|auto]]);
    (split; [try done|intros (H1 & H2 & H3); try congruence]).
Qed.

(** ** The outcomes of [get] *)

(** X10.  [get] fails with an error that wraps [errNotFound] exactly when
    the URL parses and the upstream answers 404: a transport error, every
    other status and a body that does not decode give errors that wrap
    nothing, so a caller can tell a missing release from a failure. *)
Theorem get_not_found_iff_404
    (parse_error : string -> option error)
    (roundTrip : client.Request -> client.Response + error)
    (V : Type) (json_Decode : string -> V + error)
    (cfg : Config.t) (url : string) :
  (exists err,
     (client.get parse_error roundTrip json_Decode cfg url).1
       = client.Failed err /\
     Unwrap err = Some errNotFound) <->
  parse_error url = None /\
  exists resp, roundTrip (client.mkRequest "GET" url ∅) = inl resp /\
               client.StatusCode resp = 404.
Proof.
  unfold client.get, client.http_Get, client.NewRequest.
  destruct (parse_error url) as [e|].
  { split; [by intros (err & H & _)|by intros [H _]]. }
  destruct (roundTrip _) as [resp|e]; cbn [fst].
  2:{ split; [by intros (err & [= <-] & H)|by intros (_ & resp & H & _)]. }
  destruct (Nat.eqb_spec (client.StatusCode resp) 404) as [H404|H404]; cbn [fst].
  { split; [intros _; split; [done|by exists resp]|]. intros _. by eexists. }
  assert (forall P : Prop,
            ~ P ->
            P <-> @None error = None /\
                  exists resp0 : client.Response,
                    @inl _ error resp = inl resp0 /\
                    client.StatusCode resp0 = 404) as Hno.
  { intros P HP. split; [done|]. by intros (_ & resp0 & [= <-] & H). }
  apply Hno.
  destruct (negb _); cbn [fst]; [by intros (err & [= <-] & H)|].
  destruct (json_Decode _); cbn [fst];
    [by intros (err & H & _)|by intros (err & [= <-] & H)].
Qed.

(** X11.  [get] stores a decoded value exactly when the URL parses, the
    upstream answers 200 and the body decodes; the value is the one
    decoded from that body.  Every other status, 2xx ones too, is an
    error. *)
Theorem get_decodes_iff_200
    (parse_error : string -> option error)
    (roundTrip : client.Request -> client.Response + error)
    (V : Type) (json_Decode : string -> V + error)
    (cfg : Config.t) (url : string) (v : V) :
  (client.get parse_error roundTrip json_Decode cfg url).1 = client.Decoded v
  <->
  parse_error url = None /\
  exists resp, roundTrip (client.mkRequest "GET" url ∅) = inl resp /\
               client.StatusCode resp = 200 /\
               json_Decode (client.Body resp) = inl v.
Proof.
  unfold client.get, client.http_Get, client.NewRequest.
  destruct (parse_error url) as [e|].
  { split; [done|by intros [H _]]. }
  destruct (roundTrip _) as [resp|e]; cbn [fst].
  2:{ split; [done|by intros (_ & resp & H & _)]. }
  destruct (Nat.eqb_spec (client.StatusCode resp) 404) as [H404|H404]; cbn [fst].
  { split; [done|]. intros (_ & resp0 & [= <-] & H & _). by rewrite H in H404. }
  destruct (Nat.eqb_spec (client.StatusCode resp) 200) as [H200|H200];
    cbn [negb fst].
  2:{ split; [done|]. by intros (_ & resp0 & [= <-] & H & _). }
  destruct (json_Decode _) as [v'|e] eqn:Hd; cbn [fst].
  - split.
    + intros [= <-]. split; [done|]. by exists resp.
    + intros (_ & resp0 & [= <-] & _ & H). rewrite Hd in H. by injection H as ->.
  - split; [done|]. intros (_ & resp0 & [= <-] & _ & H). by rewrite Hd in H.
Qed.

(** X12.  [get] panics exactly on a URL that [http.NewRequest] refuses:
    the error of line 213 is dropped and the nil request is used on line
    214.  Nothing is sent then; on every other URL [get] returns, with a
    value or an error. *)
Theorem get_panics_iff_url_is_refused
    (parse_error : string -> option error)
    (roundTrip : client.Request -> client.Response + error)
    (V : Type) (json_Decode : string -> V + error)
    (cfg : Config.t) (url : string) :
  ((client.get parse_error roundTrip json_Decode cfg url).1 = client.Panic <->
   is_Some (parse_error url)) /\
  ((client.get parse_error roundTrip json_Decode cfg url).1 = client.Panic ->
   (client.get parse_error roundTrip json_Decode cfg url).2 = []).
Proof.
  unfold client.get, client.http_Get, client.NewRequest.
  destruct (parse_error url) as [e|].
  { split; [|done]. split; [by eexists|done]. }
  assert (forall o : client.outcome V * list client.Request,
            o.1 <> client.Panic ->
            (o.1 = client.Panic <-> is_Some (@None error)) /\
            (o.1 = client.Panic -> o.2 = [])) as Hno.
  { intros o Ho. split; [|done]. split; [done|]. by intros [? ?]. }
  apply Hno.
  destruct (roundTrip _) as [resp|e]; cbn [fst]; [|done].
  destruct (Nat.eqb _ 404); cbn [fst]; [done|].
  destruct (negb _); cbn [fst]; [done|].
  by destruct (json_Decode _).
Qed.

(** ** Asset keys *)

Lemma slashFree_split s1 s2 t1 t2 :
  slashFree s1 = true -> slashFree t1 = true ->
  s1 +:+ "/" +:+ s2 = t1 +:+ "/" +:+ t2 ->
  s1 = t1 /\ s2 = t2.
Proof.
  revert t1. induction s1 as [|c s1 IH]; intros [|d t1] Hs Ht H.
  - by injection H.
  - rewrite app_String in H. injection H as <- _.
    by cbn in Ht.
  - rewrite app_String in H. injection H as -> _.
    by cbn in Hs.
  - rewrite !app_String in H. injection H as -> H.
    cbn in Hs, Ht. apply andb_prop in Hs as [_ Hs], Ht as [_ Ht].
    by destruct (IH t1 Hs Ht H) as [-> ->].
Qed.

(** X13.  [Key] tells platforms apart as long as the names of the
    operating systems hold no [/]: two assets with such names and the same
    key have the same OS and the same Arch. *)
Theorem Key_is_injective_without_slash (a b : Asset) :
  slashFree (OS a) = true -> slashFree (OS b) = true ->
  Key a = Key b ->
  OS a = OS b /\ Arch a = Arch b.
Proof. intros Ha Hb H. by apply slashFree_split. Qed.

Lemma Key_is_injective_without_slash_witness :
  OS (mkAsset "serve_linux" "linux" "amd64" "" "" "") =
  OS (mkAsset "serve.tar.gz" "linux" "amd64" "" "" "") /\
  Arch (mkAsset "serve_linux" "linux" "amd64" "" "" "") =
  Arch (mkAsset "serve.tar.gz" "linux" "amd64" "" "" "").
Proof.
  apply (Key_is_injective_without_slash
           (mkAsset "serve_linux" "linux" "amd64" "" "" "")
           (mkAsset "serve.tar.gz" "linux" "amd64" "" "" ""));
    vm_compute; reflexivity.
Defined.

(** with a [/] in the OS, two platforms share a key *)
Example Key_collides_with_slash :
  Key (mkAsset "" "a/b" "c" "" "" "") = Key (mkAsset "" "a" "b/c" "" "" "").
Proof. reflexivity. Qed.

Lemma slashFree_app_slash s t : slashFree (s +:+ "/" +:+ t) = false.
Proof.
  induction s as [|c s IH]; [done|].
  rewrite app_String. unfold slashFree in *. cbn [Str.all].
  by rewrite IH, andb_false_r.
Qed.

Lemma slashFree_split_r s1 s2 t1 t2 :
  slashFree t1 = true -> slashFree t2 = true ->
  s1 +:+ "/" +:+ s2 = t1 +:+ "/" +:+ t2 ->
  s1 = t1 /\ s2 = t2.
Proof.
  revert t1. induction s1 as [|c s1 IH]; intros [|d t1] Ht1 Ht2 H.
  - by injection H.
  - rewrite app_String in H. injection H as <- _. by cbn in Ht1.
  - rewrite app_String in H. injection H as -> H.
    change ("" +:+ t2) with t2 in H. subst t2.
    by rewrite slashFree_app_slash in Ht2.
  - rewrite !app_String in H. injection H as -> H.
    cbn in Ht1. apply andb_prop in Ht1 as [_ Ht1].
    by destruct (IH t1 Ht1 Ht2 H) as [-> ->].
Qed.

Lemma Key_darwin_arm64 a :
  Key a = "darwin/arm64" <-> OS a = "darwin" /\ Arch a = "arm64".
Proof.
  unfold Key. split; [|by intros [-> ->]].
  intros H. by apply (slashFree_split_r _ _ "darwin" "arm64").
Qed.

(** X14.  [HasM1] and [IsMacM1] agree with [Key]: an asset is a native
    M1 asset exactly when its key is [darwin/arm64], and a list has one
    exactly when that key is among the keys of its assets. *)
Theorem HasM1_iff_key_darwin_arm64 (as_ : Assets) :
  (forall a, IsMacM1 a = true <-> Key a = "darwin/arm64") /\
  (HasM1 as_ = true <-> "darwin/arm64" ∈ Key <$> as_).
Proof.
  assert (forall a, IsMacM1 a = true <-> Key a = "darwin/arm64") as HK.
  { intros a. rewrite Key_darwin_arm64. unfold IsMacM1, IsMac.
    by rewrite andb_true_iff, !String.eqb_eq. }
  split; [done|].
  induction as_ as [|a rest IH]; cbn [HasM1 fmap list_fmap].
  - split; [done|]. by intros ?%elem_of_nil.
  - rewrite elem_of_cons, <-IH.
    destruct (IsMacM1 a) eqn:Ha.
    + apply HK in Ha. split; [by left|done].
    + split; [by right|]. intros [H|H]; [|done].
      symmetry in H. apply HK in H. by rewrite H in Ha.
Qed.

(** ** The shape of a cache key *)

Lemma round_length st kw : length st = 8 -> length (sha256.round st kw) = 8.
Proof.
  intros H. do 8 (destruct st as [|? st]; [done|]). by destruct st.
Qed.

Lemma foldl_round_length kws st :
  length st = 8 -> length (foldl sha256.round st kws) = 8.
Proof.
  revert st. induction kws as [|kw kws IH]; intros st H; [done|].
  cbn [foldl]. by apply IH, round_length.
Qed.

Lemma block_length st blk :
  length st = 8 -> length (sha256.block st blk) = 8.
Proof.
  intros H. unfold sha256.block.
  rewrite length_zip_with, foldl_round_length by done. lia.
Qed.

Lemma blocks_length fuel st bs :
  length st = 8 -> length (sha256.blocks fuel st bs) = 8.
Proof.
  revert st bs. induction fuel as [|fuel IH]; intros st bs H; [done|].
  destruct bs as [|b bs]; [done|].
  cbn [sha256.blocks]. by apply IH, block_length.
Qed.

Lemma Sum_length msg : length (sha256.Sum msg) = 32.
Proof.
  unfold sha256.Sum.
  pose proof (blocks_length (length (sha256.pad msg)) sha256.init
                (sha256.pad msg) eq_refl) as H.
  destruct (sha256.blocks _ _ _) as [|? st]; [done|].
  do 7 (destruct st as [|? st]; [done|]). by destruct st.
Qed.

Lemma enc_isBase64 v : isBase64 (base64.enc v) = true.
Proof.
  unfold base64.enc.
  assert (Z.to_nat (v mod 64) < 64) as H.
  { pose proof (Z.mod_pos_bound v 64 eq_refl). lia. }
  destruct (Z.to_nat (v mod 64)) as [|n]; [done|].
  do 63 (destruct n as [|n]; [done|]). lia.
Qed.

(** X15.  A cache key has a fixed shape, whatever the query: 44
    characters, of which the first 43 are of the base64 alphabet and the
    last is the padding [=] of a digest of 32 bytes. *)
Theorem cacheKey_has_44_characters (q : Query) :
  String.length (cacheKey q) = 44 /\
  exists s, cacheKey q = s +:+ "=" /\ String.length s = 43 /\
            Str.all isBase64 s = true.
Proof.
  unfold cacheKey.
  pose proof (Sum_length (bytes (json.Encode q))) as H.
  destruct (sha256.Sum _) as [|? l]; [done|].
  do 31 (destruct l as [|? l]; [done|]). destruct l; [|done].
  unfold base64.EncodeToString. cbn [length base64.encode].
  split; [done|].
  eexists (String _ (String _ (String _ (String _ (String _ (String _
   (String _ (String _ (String _ (String _ (String _ (String _ (String _
   (String _ (String _ (String _ (String _ (String _ (String _ (String _
   (String _ (String _ (String _ (String _ (String _ (String _ (String _
   (String _ (String _ (String _ (String _ (String _ (String _ (String _
   (String _ (String _ (String _ (String _ (String _ (String _ (String _
   (String _ (String _ ""))))))))))))))))))))))))))))))))))))))))))).
  split; [reflexivity|]. split; [done|].
  cbn [Str.all]. by rewrite !enc_isBase64.
Qed.

(** ** What a cache key tells apart *)

Lemma app_inv_head_str s t1 t2 : s +:+ t1 = s +:+ t2 -> t1 = t2.
Proof.
  induction s as [|c s IH]; [done|]. rewrite !app_String. by intros [= H%IH].
Qed.

(** two texts that stop at the first [q] are cut at the same place *)
Lemma cut_at q s1 s2 r1 r2 :
  Str.all (fun c => negb (Ascii.eqb c q)) s1 = true ->
  Str.all (fun c => negb (Ascii.eqb c q)) s2 = true ->
  s1 +:+ String q r1 = s2 +:+ String q r2 ->
  s1 = s2 /\ r1 = r2.
Proof.
  revert s2. induction s1 as [|c s1 IH]; intros [|d s2] H1 H2 H.
  - by injection H.
  - rewrite app_String in H. injection H as <- _.
    cbn in H2. by rewrite Ascii.eqb_refl in H2.
  - rewrite app_String in H. injection H as -> _.
    cbn in H1. by rewrite Ascii.eqb_refl in H1.
  - rewrite !app_String in H. injection H as -> H.
    cbn in H1, H2. apply andb_prop in H1 as [_ H1], H2 as [_ H2].
    by destruct (IH s2 H1 H2 H) as [-> ->].
Qed.

Lemma plain_no_quote s :
  plain s = true -> Str.all (fun c => negb (Ascii.eqb c "034")) s = true.
Proof.
  induction s as [|c s IH]; [done|]. unfold plain in *. cbn [Str.all].
  intros [Hc Hs]%andb_prop. rewrite IH by done.
  destruct (Ascii.eqb_spec c "034") as [->|]; [done|done].
Qed.

Lemma escapeByte_plain c :
  json.htmlSafe (Z.of_N (N_of_ascii c)) = true ->
  json.escapeByte c = String c "".
Proof. intros H. unfold json.escapeByte. by rewrite H. Qed.

(** the loop of [appendString] copies a plain text *)
Lemma escape_plain pre n s :
  plain pre = true ->
  json.escape (String.length pre + n) (pre +:+ s) = pre +:+ json.escape n s.
Proof.
  induction pre as [|c pre IH]; [done|]. unfold plain in *. cbn [Str.all].
  intros [[Hlt Hsafe]%andb_prop Hpre]%andb_prop.
  rewrite app_String. cbn [String.length Nat.add json.escape].
  rewrite Hlt, escapeByte_plain, IH by done. done.
Qed.

Lemma appendString_plain s :
  plain s = true -> json.appendString s = String "034" (s +:+ json.quote).
Proof.
  intros H. unfold json.appendString.
  pose proof (escape_plain s 0 "" H) as He.
  rewrite Nat.add_0_r, app_empty_r in He.
  destruct (String.length s); by rewrite He, app_empty_r.
Qed.

Lemma appendBool_inj b1 b2 c r1 r2 :
  json.appendBool b1 +:+ String c r1 = json.appendBool b2 +:+ String c r2 ->
  b1 = b2 /\ r1 = r2.
Proof.
  destruct b1, b2; cbn [json.appendBool]; intros H;
    [by apply app_inv_head_str in H as [= ->]|done|done|
     by apply app_inv_head_str in H as [= ->]].
Qed.

(** X16.  On queries whose texts are plain, the JSON that is hashed tells
    every field apart: two such queries with the same encoding are the
    same query, so that their cache keys differ unless SHA-256 collides. *)
Theorem Encode_is_injective_on_plain_queries (q1 q2 : Query) :
  plain (User q1) = true -> plain (Program q1) = true ->
  plain (AsProgram q1) = true -> plain (Release q1) = true ->
  plain (User q2) = true -> plain (Program q2) = true ->
  plain (AsProgram q2) = true -> plain (Release q2) = true ->
  json.Encode q1 = json.Encode q2 ->
  q1 = q2.
Proof.
  destruct q1 as [u1 p1 a1 r1 m1 g1 i1 s1], q2 as [u2 p2 a2 r2 m2 g2 i2 s2].
  cbn [User Program AsProgram Release].
  intros Hu1 Hp1 Ha1 Hr1 Hu2 Hp2 Ha2 Hr2.
  unfold json.Encode, json.field.
  cbn [User Program AsProgram Release MoveToPath Google Insecure SudoMove].
  rewrite !appendString_plain by done.
  unfold json.quote. rewrite !app_assoc_str, !app_String.
  change ("" +:+ ?x) with x. rewrite !app_assoc_str, !app_String.
  change ("" +:+ ?x) with x.
  intros H.
  repeat (first
    [ apply cut_at in H as [-> H]; [|by apply plain_no_quote..]
    | apply appendBool_inj in H as [-> H]
    | progress (rewrite ?app_String in H; change ("" +:+ ?x) with x in H)
    | injection H as H ]).
  done.
Qed.

(** the query of a request and the query written out *)
Lemma Encode_is_injective_on_plain_queries_witness :
  buildQuery demo.config (demo.request "/jpillora/serve" "" "") =
  mkQuery "jpillora" "serve" "" "" false false false false.
Proof.
  apply (Encode_is_injective_on_plain_queries
           (buildQuery demo.config (demo.request "/jpillora/serve" "" ""))
           (mkQuery "jpillora" "serve" "" "" false false false false));
    vm_compute; reflexivity.
Defined.








(** ** The route, read off the path *)

Lemma name_spec cls s :
  forall n,
  s = Str.take n (span cls s)
        +:+ Str.drop (String.length (Str.take n (span cls s))) s /\
  Str.all cls (Str.take n (span cls s)) = true /\
  String.length (Str.take n (span cls s)) <= n /\
  (String.length (Str.take n (span cls s)) = n \/
   stops cls (Str.drop (String.length (Str.take n (span cls s))) s)).
Proof.
  induction s as [|c s IH]; intros [|n]; cbn [span].
  - split; [done|]. split; [done|]. split; [done|]. by left.
  - split; [done|]. split; [done|]. split; [simpl; lia|]. by right.
  - destruct (cls c); (split; [done|]); (split; [done|]);
      (split; [done|]); by left.
  - destruct (cls c) eqn:Hc.
    + destruct (IH n) as (H1 & H2 & H3 & H4).
      cbn [Str.take String.length Str.drop Str.all]. rewrite Hc, H2.
      rewrite app_String, <-H1.
      split; [done|]. split; [done|]. split; [lia|].
      destruct H4 as [H4|H4]; [left; lia|by right].
    + cbn [Str.take String.length Str.drop].
      split; [done|]. split; [done|]. split; [lia|]. by right.
Qed.

Lemma nameOf_spec s :
  s = nameOf s +:+ afterName s /\
  Str.all repoClass (nameOf s) = true /\
  String.length (nameOf s) <= 128 /\
  (String.length (nameOf s) = 128 \/ stops repoClass (afterName s)).
Proof. apply name_spec. Qed.

Lemma nameOf_valid s :
  String.eqb (nameOf s) "" = false -> validName repoClass (nameOf s) = true.
Proof.
  intros Hne. destruct (nameOf_spec s) as (_ & Hall & Hlen & _).
  unfold validName. rewrite Hall, andb_true_r.
  apply andb_true_intro. split; [|by apply Nat.leb_le].
  destruct (nameOf s); [done|]. apply Nat.leb_le. simpl. lia.
Qed.

Lemma nameOf_empty s : nameOf s = "" -> stops repoClass s.
Proof.
  intros He. destruct (nameOf_spec s) as (_ & _ & _ & [H|H]).
  - by rewrite He in H.
  - unfold afterName in H. by rewrite He in H.
Qed.

(** A repetition with a minimum that is not reached fails where the
    input does not go on with the class. *)
Lemma iterate_stops {T} p lo greedy (k : cont T) fuel done pos s caps :
  stops p s -> done < lo ->
  iterate (run (Class p)) lo greedy k fuel done pos s caps = None.
Proof.
  intros Hs Hlo. apply Nat.leb_gt in Hlo.
  assert (forall k' : cont T, run (Class p) pos s caps k' = None) as Hrun.
  { intros k'. destruct s as [|c s]; [done|].
    rewrite run_Class_String. simpl in Hs. by rewrite Hs. }
  destruct fuel as [|fuel]; [by simpl; rewrite Hlo|].
  rewrite iterate_S, Hrun, Hlo. by destruct greedy.
Qed.

(** no program name after the [/] *)
Lemma run_repo_None {T} pos s caps (k : cont T) :
  stops repoClass s ->
  run (Cat (Lit "/") (Cat repoRe releaseRe)) pos (String "/" s) caps k = None.
Proof.
  intros Hs. rewrite run_Cat, run_Lit_String, Ascii.eqb_refl, run_Cat.
  unfold repoRe. rewrite run_Cap, run_Rep. apply iterate_stops; [done|lia].
Qed.

(** The program name and what follows it, where the name may be the
    first 128 characters of a longer run. *)
Lemma run_repo_release_cut pos p rest caps path :
  validName repoClass p = true ->
  String.length p = 128 \/ stops repoClass rest ->
  run (Cat (Lit "/") (Cat repoRe releaseRe)) pos
      (String "/" (p +:+ rest)) caps (finish 0 path) =
  let caps := <[3 := p]> caps in
  let e := S pos + String.length p in
  if decide (releaseOf rest = "") then finish 0 path e rest caps
  else finish 0 path (S (S e)) (Str.drop 2 rest)
         (<[4 := "@" +:+ releaseOf rest]> (<[5 := releaseOf rest]> caps)).
Proof.
  intros (Hp1 & Hp2 & Hp)%validName_spec Hstop.
  assert (128 = String.length p \/ stops repoClass rest) as Hstop'.
  { destruct Hstop; [left; lia|by right]. }
  rewrite run_Cat, run_Lit_String, Ascii.eqb_refl, run_Cat.
  unfold repoRe. rewrite run_Cap, run_Rep.
  pose proof (run_releaseRe (finish 0 path) (S pos + String.length p) rest
                (<[3 := p]> caps) (finish_is_Some 0 path)) as Hrel.
  cbv zeta.
  destruct (decide (releaseOf rest = "")) as [Hr|Hr].
  - apply iterate_greedy_span; [done|simpl; lia|done|simpl; lia|].
    by rewrite take_span.
  - destruct (finish_is_Some 0 path (S (S (S pos + String.length p)))
                (Str.drop 2 rest)
                (<[4 := "@" +:+ releaseOf rest]>
                   (<[5 := releaseOf rest]> (<[3 := p]> caps)))) as [x Hx].
    rewrite Hx. apply iterate_greedy_span; [done|simpl; lia|done|simpl; lia|].
    by rewrite take_span, Hrel, Hx.
Qed.

Lemma attempt_pathRe_owner_cut u p rest :
  validName userClass u = true ->
  validName repoClass p = true ->
  String.length p = 128 \/ stops repoClass rest ->
  exists e caps,
    attempt pathRe 0 ("/" +:+ u +:+ "/" +:+ p +:+ rest) = Some (e, caps) /\
    groups 5 caps =
      [ Str.take e ("/" +:+ u +:+ "/" +:+ p +:+ rest); "/" +:+ u; u; p;
        (if decide (releaseOf rest = "") then "" else "@" +:+ releaseOf rest);
        releaseOf rest ].
Proof.
  intros Hu Hp Hstop.
  pose proof Hu as (Hu1 & Hu2 & Hua)%validName_spec.
  rewrite app_lit. set (path := String "/" _).
  unfold attempt, pathRe.
  change (fun e _ caps => Some (e, <[0 := Str.take (e - 0) path]> caps))
    with (finish 0 path).
  rewrite run_Cat, run_Bol_0, run_Cat. unfold userRe. rewrite run_Opt.
  rewrite run_Cap, run_Cat. unfold path at 1.
  rewrite run_Lit_String, Ascii.eqb_refl, run_Cap, run_Rep.
  pose proof (run_repo_release_cut (1 + String.length u) p rest
    (<[1 := "/" +:+ u]> (<[2 := u]> ∅)) path Hp Hstop) as Hrr.
  cbv zeta in Hrr.
  assert (Str.take (1 + String.length u - 0) path = "/" +:+ u) as Hpre.
  { unfold path. rewrite app_lit. simpl. f_equal. apply take_length. }
  destruct (decide (releaseOf rest = "")) as [Hr|Hr].
  - eexists _, _. split.
    + apply orelse_Some.
      apply iterate_greedy_span; [done|simpl; lia|by right|simpl; lia|].
      rewrite take_span, app_lit, Hpre, Hrr. unfold finish. reflexivity.
    + unfold groups. cbn [seq fmap list_fmap]. map_lookups.
      by rewrite Nat.sub_0_r, Hr.
  - eexists _, _. split.
    + apply orelse_Some.
      apply iterate_greedy_span; [done|simpl; lia|by right|simpl; lia|].
      rewrite take_span, app_lit, Hpre, Hrr. unfold finish. reflexivity.
    + unfold groups. cbn [seq fmap list_fmap]. map_lookups.
      by rewrite Nat.sub_0_r.
Qed.

(** after any number of characters of a program name that starts no
    owner, the input does not go on with [/] and a name *)
Lemma noOwner_drop p rest :
  forall n,
  Str.all repoClass p = true ->
  n <= String.length p \/ stops repoClass rest ->
  noOwner rest ->
  Str.all userClass (Str.take n (p +:+ rest)) = true ->
  noOwner (Str.drop n (p +:+ rest)).
Proof.
  induction p as [|a p IH]; intros n Hp Hn Hrest Hall.
  - change ("" +:+ rest) with rest in *.
    destruct n as [|n]; [by destruct rest|].
    destruct Hn as [Hn|Hstop]; [simpl in Hn; lia|].
    destruct rest as [|c rest]; [done|].
    simpl in Hall, Hstop. by rewrite userClass_repoClass, Hstop in Hall.
  - rewrite app_String in *. simpl in Hp. apply andb_prop in Hp as [Ha Hp].
    destruct n as [|n].
    + intros ->. done.
    + simpl in Hall. apply andb_prop in Hall as [_ Hall]. simpl.
      apply IH; try done. destruct Hn as [Hn|?]; [left|by right].
      simpl in Hn. lia.
Qed.

Lemma run_slash_noOwner {T} pos s caps (k : cont T) :
  noOwner s ->
  run (Cat (Lit "/") (Cat repoRe releaseRe)) pos s caps k = None.
Proof.
  intros Hs. destruct s as [|c s]; [done|].
  destruct (Ascii.eqb_spec c "/") as [->|Hc].
  - by apply run_repo_None, Hs.
  - by apply run_slash_None.
Qed.

Lemma attempt_pathRe_no_owner_cut p rest :
  validName repoClass p = true ->
  String.length p = 128 \/ stops repoClass rest ->
  noOwner rest ->
  exists e caps,
    attempt pathRe 0 ("/" +:+ p +:+ rest) = Some (e, caps) /\
    groups 5 caps =
      [ Str.take e ("/" +:+ p +:+ rest); ""; ""; p;
        (if decide (releaseOf rest = "") then "" else "@" +:+ releaseOf rest);
        releaseOf rest ].
Proof.
  intros Hp Hstop Hrest.
  pose proof Hp as (Hp1 & Hp2 & Hpa)%validName_spec.
  rewrite app_lit. set (path := String "/" _).
  unfold attempt, pathRe.
  change (fun e _ caps => Some (e, <[0 := Str.take (e - 0) path]> caps))
    with (finish 0 path).
  rewrite run_Cat, run_Bol_0, run_Cat. unfold userRe. rewrite run_Opt.
  rewrite orelse_None.
  - unfold path at 1. rewrite (run_repo_release_cut 0 p rest ∅ path Hp Hstop).
    cbv zeta. unfold finish.
    destruct (decide (releaseOf rest = "")) as [Hr|Hr]; eexists _, _;
      (split; [reflexivity|]);
      unfold groups; cbn [seq fmap list_fmap]; map_lookups;
      by rewrite Nat.sub_0_r, ?Hr.
  - rewrite run_Cap, run_Cat. unfold path at 1.
    rewrite run_Lit_String, Ascii.eqb_refl, run_Cap, run_Rep.
    apply iterate_None. intros n Hn Hall.
    apply run_slash_noOwner. apply noOwner_drop; try done.
    destruct Hstop as [Hlen|?]; [left; lia|by right].
Qed.

Lemma attempt_pathRe_None path :
  match path with
  | String c s => c = "/"%char -> stops repoClass s
  | EmptyString => True
  end ->
  attempt pathRe 0 path = None.
Proof.
  intros Hpath. unfold attempt, pathRe.
  rewrite run_Cat, run_Bol_0, run_Cat. unfold userRe. rewrite run_Opt.
  rewrite orelse_None; [by apply run_slash_noOwner|].
  rewrite run_Cap, run_Cat. destruct path as [|c s]; [done|].
  rewrite run_Lit_String. destruct (Ascii.eqb_spec c "/") as [->|]; [|done].
  rewrite run_Cap, run_Rep. apply iterate_stops; [|lia].
  specialize (Hpath eq_refl). destruct s as [|a s]; [done|].
  simpl in *. by rewrite userClass_repoClass.
Qed.

Lemma routeQuery_None r :
  attempt pathRe 0 (http.URL_Path r) = None ->
  User (routeQuery r) = "" /\ Program (routeQuery r) = "" /\
  Release (routeQuery r) = "".
Proof.
  intros Ha. unfold routeQuery, FindStringSubmatch, pathRe in *.
  by rewrite search_Bol_0, Ha.
Qed.

(** X18.  The regular expression of the route is this reading of the
    path, on every path: the path has to start with [/] and a name, the
    run of name characters [[A-Za-z0-9_-]] cut to 128 characters; that
    name is the user if [/] and a second name come right after it, and
    the second name is then the program; else the first name is the
    program and there is no user; the release is what [releaseRe] takes
    of the text after the program.  So a name of more than 128 characters
    is cut, not refused, and what follows the program is ignored. *)
Theorem route_is_read_off_the_path (r : http.Request) :
  (User (routeQuery r), Program (routeQuery r), Release (routeQuery r)) =
  routeNames (http.URL_Path r).
Proof.
  unfold routeNames.
  destruct (http.URL_Path r) as [|c s] eqn:Hpath.
  { destruct (routeQuery_None r) as (-> & -> & ->); [|done].
    rewrite Hpath. by apply attempt_pathRe_None. }
  destruct (Ascii.eqb_spec c "/") as [->|Hc]; cbn [negb orb].
  2:{ destruct (routeQuery_None r) as (-> & -> & ->); [|done].
      rewrite Hpath. by apply attempt_pathRe_None. }
  destruct (String.eqb_spec (nameOf s) "") as [He|He].
  { destruct (routeQuery_None r) as (-> & -> & ->); [|done].
    rewrite Hpath. apply attempt_pathRe_None. intros _. by apply nameOf_empty. }
  apply String.eqb_neq in He.
  pose proof (nameOf_valid s He) as Hp.
  destruct (nameOf_spec s) as (Hs & _ & _ & Hcut).
  assert (forall rest,
            afterName s = rest -> noOwner rest ->
            (User (routeQuery r), Program (routeQuery r), Release (routeQuery r))
            = ("", nameOf s, releaseOf rest)) as Hno.
  { intros rest Hrest Hno. rewrite Hrest in Hs, Hcut.
    destruct (attempt_pathRe_no_owner_cut (nameOf s) rest Hp Hcut Hno)
      as (e & caps & Ha & Hg).
    rewrite app_lit, <-Hs, <-Hpath in Ha.
    destruct (routeQuery_groups r e caps Ha) as (-> & -> & ->).
    unfold groups in Hg. cbn [seq fmap list_fmap] in Hg.
    by injection Hg as _ _ -> -> _ ->. }
  destruct (afterName s) as [|d s2] eqn:Hafter; [by apply Hno|].
  destruct (Ascii.eqb_spec d "/") as [->|Hd]; cbn [andb];
    [|apply Hno; [done|by intros ?]].
  destruct (String.eqb_spec (nameOf s2) "") as [He2|He2]; cbn [negb].
  { apply Hno; [done|]. intros _. by apply nameOf_empty. }
  apply String.eqb_neq in He2.
  pose proof (nameOf_valid s2 He2) as Hp2.
  destruct (nameOf_spec s2) as (Hs2 & _ & _ & Hcut2).
  assert (validName userClass (nameOf s) = true) as Hu.
  { unfold validName in *. apply andb_prop in Hp as [Hlen Hall].
    rewrite Hlen. cbn [andb]. clear -Hall.
    induction (nameOf s) as [|a t IH]; [done|]. simpl in *.
    apply andb_prop in Hall as [Ha Ht]. by rewrite userClass_repoClass, Ha, IH. }
  destruct (attempt_pathRe_owner_cut (nameOf s) (nameOf s2) (afterName s2)
              Hu Hp2 Hcut2) as (e & caps & Ha & Hg).
  assert ("/" +:+ nameOf s +:+ "/" +:+ nameOf s2 +:+ afterName s2
          = http.URL_Path r) as Heq.
  { rewrite Hpath, <-Hs2, !app_lit. f_equal. by symmetry. }
  rewrite Heq in Ha.
  destruct (routeQuery_groups r e caps Ha) as (-> & -> & ->).
  unfold groups in Hg. cbn [seq fmap list_fmap] in Hg.
  by injection Hg as _ _ -> -> _ ->.
Qed.
